(** * hfutils: local-time approximation and diurnal-cycle averaging

    A shallow embedding of [src/hfutils/diurnal_cycle.py], followed by the
    two helper modules [src/hfutils/histogram_utils.py] and
    [src/hfutils/datetime_utils.py] (modules [HistogramUtils] and
    [DatetimeUtils] below).

    The three Python functions are short compositions of numpy/xarray
    primitives, so the embedding has two layers:

    - [Module Numpy]: the library primitives the source calls (the
      float -> timedelta64 cast, the cast between timedelta64 units and the
      way a DataArray stores its result, arithmetic that keeps or unifies
      units, [diff], [unique], the NaN-skipping mean);
    - [Module DiurnalCycle]: [get_approx_localtime], [_get_time_resolution]
      and [avg_diurnal_cycle], line by line.

    Conventions.
    - A datetime64 instant is a count of nanoseconds since the epoch, as
      xarray stores time coordinates; NaT is [None].
    - A timedelta64 array carries its unit in its dtype; the unit is kept
      as a number of nanoseconds per tick ([s] is 10^9, [Rs] is R * 10^9).
    - The arrays of [diurnal_cycle] are xarray DataArrays, and the library
      releases modelled are those on which the whole module runs (xarray
      2022.12 to 2023.8).  There a DataArray cast to [timedelta64[<R>s]]
      holds the floored counts read in seconds ([dataarray_store]); later
      releases keep the multiple R, reject the cast, or refuse the
      coordinate assignment of [avg_diurnal_cycle].
    - Tick counts are unbounded [Z]: the int64 range of numpy is not
      modelled, so the statements hold for inputs whose intermediate counts
      fit in 64 bits.
    - Longitudes are binary64 floats ([PrimFloat]), with IEEE arithmetic as
      numpy performs it on a float64 array.
    - Data values are binary64 floats, NaN standing for a missing value;
      sums are taken left to right.
    - [time_resolution_seconds] is a positive integer, as the docstring of
      [get_approx_localtime] has it; the dtype string of line 43 gives no
      array otherwise ([resolution_dtype_error]), and the statements about
      [get_approx_localtime] with keep_time_resolution assume [0 < R]. *)

From Stdlib Require Import Ascii String ZArith QArith List Bool Lia.
From Stdlib Require Import Uint63 PrimFloat SpecFloat FloatOps.
Import ListNotations.

Local Open Scope Z_scope.

(** ** numpy primitives *)

Module Numpy.

(** Nanoseconds in one second: the unit of [timedelta64[s]]. *)
Definition ns_per_s : Z := 1000000000.

(** A timedelta64 array: the dtype's unit and the tick counts ([None] = NaT). *)
Record timedelta64 : Type := mk_td {
  td_unit : Z;
  td_ticks : list (option Z)
}.

(** A datetime64[ns] value; [None] is NaT. *)
Definition datetime64 : Type := option Z.

(** [float64 -> int64] as the C cast numpy uses for
    [astype('timedelta64[s]')]: truncation toward zero; NaN, the infinities
    and values outside the int64 range give the NaT bit pattern. *)
Definition float_to_int64 (f : float) : option Z :=
  match Prim2SF f with
  | S754_zero _ => Some 0
  | S754_finite s m e =>
      let mag := if 0 <=? e then Z.shiftl (Z.pos m) e
                 else Z.shiftr (Z.pos m) (- e) in
      let v := if s then - mag else mag in
      if (- 2 ^ 63 <? v) && (v <? 2 ^ 63) then Some v else None
  | S754_infinity _ => None
  | S754_nan => None
  end.

(** [a.astype('timedelta64[s]')] for a float array [a]. *)
Definition astype_float_timedelta_s (a : list float) : timedelta64 :=
  mk_td ns_per_s (map float_to_int64 a).

(** The scaling numpy applies to one tick count when a timedelta64 is cast
    from unit [src] to unit [dst] (both in ns per tick): with [num/denom] the
    reduced ratio of the units, a negative count is biased by [denom - 1]
    before the C division, which truncates. *)
Definition cast_ticks (src dst : Z) (dt : Z) : Z :=
  let g := Z.gcd src dst in
  let num := src / g in
  let denom := dst / g in
  if dt <? 0 then Z.quot (dt * num - (denom - 1)) denom
  else Z.quot (dt * num) denom.

(** [a.astype('timedelta64[<unit>]')] for a timedelta64 array; NaT stays NaT. *)
Definition astype_timedelta (unit : Z) (a : timedelta64) : timedelta64 :=
  mk_td unit (map (option_map (cast_ticks (td_unit a) unit)) (td_ticks a)).

(** [a * k] for a timedelta64 array and an integer: the tick counts are
    multiplied and the unit of the dtype is kept. *)
Definition timedelta_mul (a : timedelta64) (k : Z) : timedelta64 :=
  mk_td (td_unit a) (map (option_map (fun t => t * k)) (td_ticks a)).

(** What a DataArray holds after [astype('timedelta64[<R>s]')]: xarray
    stores the cast counts as they are and reads them in the base unit of
    the dtype, the second; the multiple R of the unit is not kept. *)
Definition dataarray_store (base_unit : Z) (a : timedelta64) : timedelta64 :=
  mk_td base_unit (td_ticks a).

(** [x + y] on tick counts with NaT absorbing. *)
Definition nat_add (x y : option Z) : option Z :=
  match x, y with
  | Some a, Some b => Some (a + b)
  | _, _ => None
  end.

(** [a + b] for a timedelta64 array and a 0-d timedelta64 [b]: both are cast
    to the greatest common divisor of the two units, then added. *)
Definition timedelta_add_scalar (a : timedelta64) (b_unit : Z) (b : option Z)
  : timedelta64 :=
  let u := Z.gcd (td_unit a) b_unit in
  mk_td u (map (fun x => nat_add (option_map (cast_ticks (td_unit a) u) x)
                                 (option_map (cast_ticks b_unit u) b))
               (td_ticks a)).

(** [t + d] for a datetime64[ns] instant and one timedelta64 tick count of
    unit [unit]: the timedelta is cast to nanoseconds first. *)
Definition datetime_add (t : Z) (unit : Z) (d : option Z) : datetime64 :=
  option_map (fun ticks => t + cast_ticks unit 1 ticks) d.

(** [np.diff] / [DataArray.diff]: consecutive differences, in the order the
    coordinate has; empty for fewer than two entries. *)
Fixpoint diff (l : list Z) : list Z :=
  match l with
  | [] => []
  | a :: tl =>
      match tl with
      | [] => []
      | b :: _ => (b - a) :: diff tl
      end
  end.

(** Insertion of one value into a strictly increasing list. *)
Fixpoint insert_unique (x : Z) (l : list Z) : list Z :=
  match l with
  | [] => [x]
  | y :: l' =>
      if x <? y then x :: l
      else if x =? y then l
      else y :: insert_unique x l'
  end.

(** [np.unique]: the sorted distinct values of an array. *)
Definition unique (l : list Z) : list Z := fold_right insert_unique [] l.

(** The NaN-skipping reduction behind [mean(skipna=True)], on binary64
    values: the values that are not NaN are added, left to right, and the
    sum is divided by their number; without any such value the quotient
    0/0 is NaN. *)
Definition nansum (l : list float) : float :=
  fold_left (fun acc v => if is_nan v then acc else (acc + v)%float)
            l 0%float.

Definition count_valid (l : list float) : nat :=
  fold_left (fun n v => if is_nan v then n else S n) l O.

Definition float_of_nat (n : nat) : float :=
  PrimFloat.of_uint63 (Uint63.of_Z (Z.of_nat n)).

Definition nanmean (l : list float) : float :=
  (nansum l / float_of_nat (count_valid l))%float.

End Numpy.

Module DiurnalCycle.
Import Numpy.

(** The float expression of line 39, [(longitude * 12/180) * 60**2]:
    Python parses it as [((longitude * 12) / 180) * 3600]. *)
Definition offset_seconds_float (longitude : float) : float :=
  (((longitude * 12) / 180) * 3600)%float.

(** The per-longitude offset array that [get_approx_localtime] builds in
    lines 39-48 before adding it to the reference time.  In lines 42-44 the
    DataArray cast to [timedelta64[<R>s]] holds the floored counts in
    seconds, and the product by R makes them multiples of R.  In line 48,
    [time_resolution_seconds/2] is Python's true division, an exact
    binary64 half-integer below 2^53, and the cast to [timedelta64[s]]
    truncates it toward zero: [Z.quot]. *)
Definition local_time_offset (longitude : list float)
    (time_resolution_seconds : Z) (keep_time_resolution center : bool)
  : timedelta64 :=
  let local_time_offset :=
    astype_float_timedelta_s (map offset_seconds_float longitude) in
  if keep_time_resolution then
    let local_time_offset :=
      timedelta_mul
        (dataarray_store ns_per_s
           (astype_timedelta (time_resolution_seconds * ns_per_s)
              local_time_offset))
        time_resolution_seconds in
    if center then
      timedelta_add_scalar local_time_offset
        ns_per_s (Some (Z.quot time_resolution_seconds 2))
    else local_time_offset
  else local_time_offset.

(** [get_approx_localtime] on a reference array with dimension [time] and a
    longitude array with dimension [lon]: line 50 broadcasts the sum to one
    row per reference time and one column per longitude. *)
Definition get_approx_localtime (reference_datetime : list Z)
    (longitude : list float) (time_resolution_seconds : Z)
    (keep_time_resolution center : bool) : list (list datetime64) :=
  let off := local_time_offset longitude time_resolution_seconds
               keep_time_resolution center in
  map (fun t => map (datetime_add t (td_unit off)) (td_ticks off))
      reference_datetime.

(** The same function called with both arrays on one shared dimension, as
    [avg_diurnal_cycle] does after stacking: xarray aligns by dimension name,
    so line 50 adds element by element. *)
Definition get_approx_localtime_stacked (reference_datetime : list Z)
    (longitude : list float) (time_resolution_seconds : Z)
    (keep_time_resolution center : bool) : list datetime64 :=
  let off := local_time_offset longitude time_resolution_seconds
               keep_time_resolution center in
  map (fun p => datetime_add (fst p) (td_unit off) (snd p))
      (combine reference_datetime (td_ticks off)).

(** The exceptions the module can raise. *)
Inductive exception : Type :=
| ValueError (msg : string)
| IndexError
| TypeError   (* numpy does not accept the dtype string *)
| Aborted.    (* the interpreter is killed: a division by zero inside numpy *)

Definition not_evenly_spaced_msg : string :=
  "The samples of the dataset are not evenly spaced in time. Please doublecheck and provide a dataset with evenly spaced samples!".

(** [_get_time_resolution], lines 76-83.  [time] is the time coordinate in
    nanoseconds. *)
Definition _get_time_resolution (time : list Z) : exception + Z :=
  let unique_time_dels := map (cast_ticks 1 ns_per_s) (unique (diff time)) in
  if (1 <? length unique_time_dels)%nat then
    inl (ValueError not_evenly_spaced_msg)
  else
    match unique_time_dels with
    | [] => inl IndexError
    | d :: _ => inr d
    end.

(** A dataset: the [time] and [lon] coordinates and, for every data variable
    and every position along the remaining dimensions, one slice of values
    indexed by time position and longitude position (NaN is a missing
    value). *)
Record Dataset : Type := mk_dataset {
  ds_time : list Z;
  ds_lon : list float;
  ds_slices : list (nat -> nat -> float)
}.

(** [dset.stack(local_time=('lon', 'time'))]: the positions of the stacked
    dimension are the pairs (longitude position, time position), longitude
    outermost. *)
Definition stacked_index (dset : Dataset) : list (nat * nat) :=
  list_prod (seq 0 (length (ds_lon dset))) (seq 0 (length (ds_time dset))).

Definition stacked_time (dset : Dataset) : list Z :=
  map (fun p => nth (snd p) (ds_time dset) 0) (stacked_index dset).

Definition stacked_lon (dset : Dataset) : list float :=
  map (fun p => nth (fst p) (ds_lon dset) 0%float) (stacked_index dset).

Definition stacked_values (dset : Dataset) (slice : nat -> nat -> float)
  : list float :=
  map (fun p => slice (snd p) (fst p)) (stacked_index dset).

(** Nanoseconds in a day and in a microsecond. *)
Definition ns_per_day : Z := 86400 * ns_per_s.
Definition ns_per_us : Z := 1000.

(** The [.time] component of a datetime64[ns]: the time of day as a
    [datetime.time], which has microsecond precision and orders as the
    number of microseconds since midnight. *)
Definition time_of_day (t : datetime64) : option Z :=
  option_map (fun ns => (ns mod ns_per_day) / ns_per_us) t.

(** The keys that are not NaT. *)
Fixpoint valid_keys (keys : list (option Z)) : list Z :=
  match keys with
  | [] => []
  | Some k :: tl => k :: valid_keys tl
  | None :: tl => valid_keys tl
  end.

Definition key_is (k : Z) (key : option Z) : bool :=
  match key with
  | Some k' => k' =? k
  | None => false
  end.

(** The members of one group: the values at the stacked positions whose key
    is [k]. *)
Definition group_values (keys : list (option Z)) (k : Z)
    (values : list float) : list float :=
  map snd (filter (fun p => key_is k (fst p)) (combine keys values)).

(** [groupby(key).mean(skipna=True)]: one entry per distinct key, in
    ascending order, holding the mean of every slice over the group. *)
Definition groupby_mean (keys : list (option Z))
    (slices : list (list float)) : list (Z * list float) :=
  map (fun k => (k, map (fun values => nanmean (group_values keys k values))
                        slices))
      (unique (valid_keys keys)).

(** The dtype string [timedelta64[<R>s]] of line 43 for a resolution that
    is not positive: numpy rejects a negative multiple, and the cast to a
    unit of zero seconds divides by zero and ends the process. *)
Definition resolution_dtype_error (time_resolution_seconds : Z)
  : option exception :=
  if time_resolution_seconds <? 0 then Some TypeError
  else if time_resolution_seconds =? 0 then Some Aborted
  else None.

(** [avg_diurnal_cycle], lines 107-117; [kwargs] are the two keyword
    arguments [get_approx_localtime] accepts besides the resolution.  The
    resolution is the inferred one, which need not be positive: the call
    of line 111 then has no result when it reaches line 43.  [squeeze] only
    drops dimensions of size one and changes no value.  The result lists,
    for every time of day in ascending order, the mean of every slice. *)
Definition avg_diurnal_cycle (dset : Dataset)
    (keep_time_resolution center : bool)
  : exception + list (Z * list float) :=
  match _get_time_resolution (ds_time dset) with
  | inl e => inl e
  | inr time_resolution_seconds =>
      match (if keep_time_resolution
             then resolution_dtype_error time_resolution_seconds
             else None) with
      | Some e => inl e
      | None =>
          let local_time :=
            get_approx_localtime_stacked (stacked_time dset) (stacked_lon dset)
              time_resolution_seconds keep_time_resolution center in
          inr (groupby_mean (map time_of_day local_time)
                            (map (stacked_values dset) (ds_slices dset)))
      end
  end.

End DiurnalCycle.

(** ** hfutils.histogram_utils

    [src/hfutils/histogram_utils.py].  The element type of the arrays and
    its arithmetic are parameters of the section: the statements below are
    about shapes, broadcasting and which entries are combined, and hold for
    whatever the dtype computes (binary64 included; [FloatHistogram]
    instantiates it). *)

Module HistogramUtils.

Inductive hist_exception : Type :=
| BroadcastError      (* ValueError: operands could not be broadcast together *)
| UnboundLocalError.  (* a local variable read before any assignment *)

Section Dtype.

Variable A : Type.
(** Subtraction, addition and true division of the dtype, the add-reduction
    of one row or column, the constant 2, and a filler for positions outside
    an array's shape (never read inside it). *)
Variables (sub add div : A -> A -> A) (reduce_add : list A -> A).
Variables (two filler : A).

(** A two-dimensional array: its shape and its entries. *)
Record array2 : Type := mk_array2 {
  shape0 : nat;
  shape1 : nat;
  item : nat -> nat -> A
}.

(** [np.diff] of a one-dimensional array. *)
Fixpoint diff1 (l : list A) : list A :=
  match l with
  | [] => []
  | a :: tl =>
      match tl with
      | [] => []
      | b :: _ => sub b a :: diff1 tl
      end
  end.

(** [np.expand_dims(v, axis=0)]: one row; [axis=1]: one column. *)
Definition expand_dims0 (v : list A) : array2 :=
  mk_array2 1 (length v) (fun _ j => nth j v filler).

Definition expand_dims1 (v : list A) : array2 :=
  mk_array2 (length v) 1 (fun i _ => nth i v filler).

(** [a.sum(axis=1, keepdims=True)] and [a.sum(axis=0, keepdims=True)]. *)
Definition sum_axis1 (a : array2) : array2 :=
  mk_array2 (shape0 a) 1
    (fun i _ => reduce_add (map (fun j => item a i j) (seq 0 (shape1 a)))).

Definition sum_axis0 (a : array2) : array2 :=
  mk_array2 1 (shape1 a)
    (fun _ j => reduce_add (map (fun i => item a i j) (seq 0 (shape0 a)))).

(** numpy's broadcasting of one axis: equal lengths, or one of them 1. *)
Definition broadcast_dim (n m : nat) : option nat :=
  if Nat.eqb n m then Some n
  else if Nat.eqb n 1 then Some m
  else if Nat.eqb m 1 then Some n
  else None.

(** The position read along an axis of length [n] for output position [i]:
    an axis of length 1 is repeated. *)
Definition broadcast_index (n i : nat) : nat :=
  if Nat.eqb n 1 then O else i.

(** [a / b] with broadcasting. *)
Definition divide (a b : array2) : hist_exception + array2 :=
  match broadcast_dim (shape0 a) (shape0 b),
        broadcast_dim (shape1 a) (shape1 b) with
  | Some r, Some c =>
      inr (mk_array2 r c
             (fun i j =>
                div (item a (broadcast_index (shape0 a) i)
                            (broadcast_index (shape1 a) j))
                    (item b (broadcast_index (shape0 b) i)
                            (broadcast_index (shape1 b) j))))
  | _, _ => inl BroadcastError
  end.

(** [get_cond_hist2d], lines 28-34.  With a [norm_axis] other than ['x']
    and ['y'] neither branch assigns [counts_2d_cond] and line 34 reads an
    unbound local. *)
Definition get_cond_hist2d (counts_2d_comp : array2) (norm_bins : list A)
    (norm_axis : string) : hist_exception + array2 :=
  if String.eqb norm_axis "x" then
    match divide counts_2d_comp (expand_dims0 (diff1 norm_bins)) with
    | inl e => inl e
    | inr q => divide q (sum_axis1 counts_2d_comp)
    end
  else if String.eqb norm_axis "y" then
    match divide counts_2d_comp (expand_dims1 (diff1 norm_bins)) with
    | inl e => inl e
    | inr q => divide q (sum_axis0 counts_2d_comp)
    end
  else inl UnboundLocalError.

(** [get_bin_centers], line 51: [(bin_edges[:-1] + bin_edges[1:]) / 2]. *)
Definition get_bin_centers (bin_edges : list A) : list A :=
  map (fun p => div (add (fst p) (snd p)) two)
      (combine (removelast bin_edges) (tl bin_edges)).

End Dtype.

Arguments shape0 {A} _.
Arguments shape1 {A} _.
Arguments item {A} _ _ _.
Arguments mk_array2 {A} _ _ _.

End HistogramUtils.

(** The binary64 instance, with the add-reduction done left to right. *)
Module FloatHistogram.
Import HistogramUtils.

Definition float_sum (l : list float) : float :=
  fold_left PrimFloat.add l 0%float.

Definition get_cond_hist2d :=
  HistogramUtils.get_cond_hist2d float PrimFloat.sub PrimFloat.div float_sum
    nan.

Definition get_bin_centers :=
  HistogramUtils.get_bin_centers float PrimFloat.add PrimFloat.div 2%float.

(** The entries of an array, row by row. *)
Definition to_lists (a : array2 float) : list (list float) :=
  map (fun i => map (fun j => item a i j) (seq 0 (shape1 a)))
      (seq 0 (shape0 a)).

Definition of_lists (r c : nat) (l : list (list float)) : array2 float :=
  mk_array2 r c (fun i j => nth j (nth i l []) nan).

End FloatHistogram.

(** ** hfutils.datetime_utils

    [src/hfutils/datetime_utils.py].  The argument is a [np.datetime64]
    whose unit is a whole number of nanoseconds ([ns], [us], [ms], [s],
    [m], [h], [D]); NaT is [None].  The calendar is the proleptic Gregorian
    one, computed as numpy does: the 400-, 100-, 4- and 1-year cycles counted
    from the year 2000, then the table of month lengths.  [strftime] is the
    one of the C locale. *)

Module DatetimeUtils.
Import Numpy.

Inductive dt_exception : Type :=
| AttributeError.  (* [None] and [int] have no [strftime] *)

Definition is_leapyear (year : Z) : bool :=
  ((year mod 4 =? 0) && negb (year mod 100 =? 0)) || (year mod 400 =? 0).

(** Days since 1970-01-01 to the year and the day within the year. *)
Definition days_to_yearsdays (days : Z) : Z * Z :=
  let days := days - (365 * 30 + 7) in
  let year := 400 * (days / 146097) in
  let days := days mod 146097 in
  if 366 <=? days then
    let year := year + 100 * ((days - 1) / 36524) in
    let days := (days - 1) mod 36524 in
    if 365 <=? days then
      let year := year + 4 * ((days + 1) / 1461) in
      let days := (days + 1) mod 1461 in
      if 366 <=? days then
        (year + (days - 1) / 365 + 2000, (days - 1) mod 365)
      else (year + 2000, days)
    else (year + 2000, days)
  else (year + 2000, days).

Definition days_per_month (leap : bool) : list Z :=
  [31; if leap then 29 else 28; 31; 30; 31; 30; 31; 31; 30; 31; 30; 31].

(** The month and the day of the month of a day of the year. *)
Fixpoint month_day (table : list Z) (month days : Z) : Z * Z :=
  match table with
  | [] => (month, days + 1)
  | len :: rest =>
      if days <? len then (month, days + 1)
      else month_day rest (month + 1) (days - len)
  end.

(** Decimal digits. *)
Definition digit (k : Z) : ascii := ascii_of_nat (48 + Z.to_nat k).

Definition pad2 (n : Z) : string :=
  String (digit (n / 10)) (String (digit (n mod 10)) EmptyString).

(** [%Y]: the year in decimal, for the years 1 to 9999 of a [datetime]. *)
Definition year_string (y : Z) : string :=
  if y <? 10 then String (digit y) EmptyString
  else if y <? 100 then pad2 y
  else if y <? 1000 then String (digit (y / 100)) (pad2 (y mod 100))
  else (pad2 (y / 100) ++ pad2 (y mod 100))%string.

(** [np_datetime2file_datestr], lines 4-5:
    [astype('datetime64[us]')] casts to microseconds (floor), [astype('O')]
    gives a [datetime.datetime] for the years 1 to 9999, [None] for NaT and
    an [int] otherwise, and [strftime] formats ['%Y%m%dT%H%M%SZ']. *)
Definition np_datetime2file_datestr (unit_ns : Z) (time_np64 : option Z)
  : dt_exception + string :=
  match time_np64 with
  | None => inl AttributeError
  | Some ticks =>
      let us := cast_ticks unit_ns 1000 ticks in
      let seconds := us / 1000000 in
      let days := seconds / 86400 in
      let second_of_day := seconds mod 86400 in
      let (year, yday) := days_to_yearsdays days in
      let (month, day) :=
        month_day (days_per_month (is_leapyear year)) 1 yday in
      if (1 <=? year) && (year <=? 9999) then
        inr (year_string year ++ pad2 month ++ pad2 day ++ "T"
             ++ pad2 (second_of_day / 3600)
             ++ pad2 (second_of_day / 60 mod 60)
             ++ pad2 (second_of_day mod 60) ++ "Z")%string
      else inl AttributeError
  end.

(** The layout [YYYYMMDD'T'HHMMSS'Z']. *)
Definition is_digit (c : ascii) : bool :=
  ((48 <=? nat_of_ascii c) && (nat_of_ascii c <=? 57))%nat.

Definition datestr_layout (s : string) : bool :=
  match list_ascii_of_string s with
  | [y1; y2; y3; y4; m1; m2; d1; d2; t; h1; h2; n1; n2; s1; s2; z] =>
      forallb is_digit [y1; y2; y3; y4; m1; m2; d1; d2; h1; h2; n1; n2; s1; s2]
      && Ascii.eqb t "T" && Ascii.eqb z "Z"
  | _ => false
  end.

End DatetimeUtils.

(** ** Vocabulary of the statements *)

Module Spec.
Import Numpy DiurnalCycle.

(** A whole number as a binary64 float (exact below 2^53). *)
Definition Z_to_float (z : Z) : float :=
  if z <? 0 then (- PrimFloat.of_uint63 (Uint63.of_Z (- z)))%float
  else PrimFloat.of_uint63 (Uint63.of_Z z).

(** The raw offset of one longitude in whole seconds, as line 39 leaves it. *)
Definition raw_offset (longitude : float) : option Z :=
  float_to_int64 (offset_seconds_float longitude).

(** An instant moved by a number of whole seconds. *)
Definition shift_seconds (s : Z) (t : datetime64) : datetime64 :=
  option_map (fun ns => ns + s * ns_per_s) t.

(** A strictly increasing time coordinate. *)
Fixpoint increasing (l : list Z) : bool :=
  match l with
  | [] => true
  | a :: tl =>
      match tl with
      | [] => true
      | b :: _ => (a <? b) && increasing tl
      end
  end.

(** The time coordinate that starts at [t0] and has the given gaps, in
    seconds, between consecutive samples. *)
Fixpoint time_with_gaps (t0 : Z) (gaps_s : list Z) : list Z :=
  match gaps_s with
  | [] => [t0]
  | g :: tl => t0 :: time_with_gaps (t0 + g * ns_per_s) tl
  end.

(** The local time [get_approx_localtime] gives the sample at time position
    [t] and longitude position [l] of a dataset. *)
Definition local_time_at (dset : Dataset) (R : Z) (keep center : bool)
    (t l : nat) : datetime64 :=
  nth l (nth t (get_approx_localtime (ds_time dset) (ds_lon dset) R keep center)
               [])
      None.

(** The (longitude position, time position) samples of a dataset whose local
    time of day is [k]. *)
Definition bucket_samples (dset : Dataset) (R : Z) (keep center : bool)
    (k : Z) : list (nat * nat) :=
  filter (fun p => key_is k (time_of_day
                               (local_time_at dset R keep center (snd p) (fst p))))
         (stacked_index dset).




(** The duration, in nanoseconds, that lines 41-48 make of a raw offset of
    [off] whole seconds. *)
Definition offset_ns (R : Z) (keep center : bool) (off : Z) : Z :=
  if keep then
    (off / R * R + (if center then Z.quot R 2 else 0)) * ns_per_s
  else off * ns_per_s.

(** Unit and single entry of the offset array, read off a one-longitude call. *)
Definition offset_unit (R : Z) (keep center : bool) : Z :=
  td_unit (local_time_offset [] R keep center).

Definition offset_tick (R : Z) (keep center : bool) (l : float) : option Z :=
  hd None (td_ticks (local_time_offset [l] R keep center)).

(** The linear relation [longitude * (12/180) * 3600] for a whole number of
    degrees, as an exact rational number of seconds. *)
Definition linear_offset (degrees : Z) : Q :=
  (inject_Z degrees * (12 # 180) * 3600)%Q.

(** The whole numbers [lo, lo + 1, ...], [n] of them. *)
Definition zrange (lo : Z) (n : nat) : list Z :=
  map (fun i => lo + Z.of_nat i) (seq 0 n).

(** The raw offset of a whole-degree longitude never exceeds the linear
    value in magnitude and falls short of it by at most one second. *)
Definition within_one_second (d : Z) : bool :=
  match raw_offset (Z_to_float d) with
  | Some s => (Z.abs s <=? Z.abs (240 * d))
              && (Z.abs (240 * d) - Z.abs s <=? 1)
              && (0 <=? s * d)
  | None => false
  end.

(** 2020-01-01T00:00Z and the example coordinate of four samples six hours
    apart. *)
Definition t2020 : Z := 1577836800 * ns_per_s.
Definition six_hourly : list Z := time_with_gaps t2020 [21600; 21600; 21600].

(** A small dataset on the six-hourly coordinate with longitudes 0 and
    180 and two slices: the first has one missing sample (time 0,
    longitude 0), the second is missing at time position 1 and at (time 3,
    longitude 180). *)
Definition example_dataset : Dataset :=
  mk_dataset six_hourly [0%float; 180%float]
    [ (fun t l => if (Nat.eqb t 0 && Nat.eqb l 0)%bool then nan
                  else float_of_nat (t + 10 * l));
      (fun t l => if (Nat.eqb t 1 || (Nat.eqb t 3 && Nat.eqb l 1))%bool
                  then nan else 1%float) ].



End Spec.

Import Numpy DiurnalCycle Spec.

(** ** The cast between timedelta64 units *)

Section Casts.

(** The biased truncating division of [cast_ticks] is floor division. *)
Lemma cast_ticks_floor (src dst dt : Z) :
  0 < src -> 0 < dst -> cast_ticks src dst dt = (dt * src) / dst.
Proof.
  intros Hs Hd. unfold cast_ticks.
  set (g := Z.gcd src dst).
  assert (Hg : 0 < g).
  { pose proof (Z.gcd_nonneg src dst) as Hn.
    assert (g <> 0); [| fold g in Hn; lia].
    unfold g. intro H0. apply Z.gcd_eq_0_l in H0. lia. }
  destruct (Z.gcd_divide_l src dst) as [a Ha].
  destruct (Z.gcd_divide_r src dst) as [b Hb].
  fold g in Ha, Hb.
  assert (Hnum : src / g = a) by (rewrite Ha; apply Z.div_mul; lia).
  assert (Hden : dst / g = b) by (rewrite Hb; apply Z.div_mul; lia).
  rewrite Hnum, Hden.
  assert (Ha0 : 0 < a) by nia.
  assert (Hb0 : 0 < b) by nia.
  assert (Hred : (dt * src) / dst = (dt * a) / b).
  { rewrite Ha, Hb. rewrite Z.mul_assoc. apply Z.div_mul_cancel_r; lia. }
  rewrite Hred.
  destruct (dt <? 0) eqn:Hneg.
  - apply Z.ltb_lt in Hneg.
    set (x := dt * a). assert (Hx : x < 0) by (unfold x; nia).
    replace (x - (b - 1)) with (- (b - 1 - x)) by lia.
    rewrite Z.quot_opp_l by lia.
    rewrite Z.quot_div_nonneg by lia.
    pose proof (Z.div_mod (b - 1 - x) b ltac:(lia)) as E1.
    pose proof (Z.mod_pos_bound (b - 1 - x) b Hb0) as B1.
    pose proof (Z.div_mod x b ltac:(lia)) as E2.
    pose proof (Z.mod_pos_bound x b Hb0) as B2.
    nia.
  - apply Z.ltb_ge in Hneg.
    apply Z.quot_div_nonneg; nia.
Qed.

Lemma cast_ticks_same (u dt : Z) : 0 < u -> cast_ticks u u dt = dt.
Proof.
  intro Hu. rewrite cast_ticks_floor by lia. apply Z.div_mul. lia.
Qed.

Lemma cast_ticks_to_finer (k u dt : Z) :
  0 < k -> 0 < u -> cast_ticks (k * u) u dt = dt * k.
Proof.
  intros Hk Hu. rewrite cast_ticks_floor by nia.
  rewrite Z.mul_assoc. apply Z.div_mul. lia.
Qed.

Lemma cast_ticks_to_coarser (k u dt : Z) :
  0 < k -> 0 < u -> cast_ticks u (k * u) dt = dt / k.
Proof.
  intros Hk Hu. rewrite cast_ticks_floor by nia.
  apply Z.div_mul_cancel_r; lia.
Qed.

Lemma cast_ticks_to_ns (u dt : Z) : 0 < u -> cast_ticks u 1 dt = dt * u.
Proof.
  intro Hu. rewrite cast_ticks_floor by lia. apply Z.div_1_r.
Qed.

End Casts.

(** ** The offset array of [get_approx_localtime] *)

Section LocalTime.

(** The offset array is computed longitude by longitude, with one unit. *)
Lemma local_time_offset_elementwise (lon : list float) (R : Z)
    (keep center : bool) :
  local_time_offset lon R keep center
  = mk_td (offset_unit R keep center) (map (offset_tick R keep center) lon).
Proof.
  unfold offset_unit, offset_tick, local_time_offset.
  unfold timedelta_add_scalar, timedelta_mul, dataarray_store,
    astype_timedelta, astype_float_timedelta_s.
  destruct keep; [destruct center |]; cbn [td_unit td_ticks map hd];
    rewrite ?map_map; reflexivity.
Qed.

(** What the offset of one longitude amounts to in nanoseconds. *)
Lemma datetime_add_offset (t R : Z) (keep center : bool) (l : float) :
  0 < R ->
  datetime_add t (offset_unit R keep center) (offset_tick R keep center l)
  = option_map (fun off => t + offset_ns R keep center off) (raw_offset l).
Proof.
  intro HR.
  assert (Hns : 0 < ns_per_s) by (unfold ns_per_s; lia).
  unfold offset_unit, offset_tick, local_time_offset, offset_ns, raw_offset,
    datetime_add.
  unfold timedelta_add_scalar, timedelta_mul, dataarray_store,
    astype_timedelta, astype_float_timedelta_s.
  destruct keep; [destruct center |]; cbn [td_unit td_ticks map hd];
    destruct (float_to_int64 (offset_seconds_float l)) as [off |];
    cbn [option_map nat_add]; try reflexivity.
  - rewrite Z.gcd_diag, Z.abs_eq by lia.
    rewrite cast_ticks_to_coarser, !cast_ticks_same, cast_ticks_to_ns by lia.
    reflexivity.
  - rewrite cast_ticks_to_coarser by lia.
    rewrite cast_ticks_to_ns by lia.
    do 2 f_equal. lia.
  - rewrite cast_ticks_to_ns by lia. reflexivity.
Qed.

(** The broadcast result, entry by entry. *)
Lemma get_approx_localtime_entries (ref : list Z) (lon : list float) (R : Z)
    (keep center : bool) :
  get_approx_localtime ref lon R keep center
  = map (fun t => map (fun l => datetime_add t (offset_unit R keep center)
                                  (offset_tick R keep center l)) lon) ref.
Proof.
  unfold get_approx_localtime.
  rewrite local_time_offset_elementwise. cbn [td_unit td_ticks].
  apply map_ext. intro t. apply map_map.
Qed.

Lemma get_approx_localtime_seconds (ref : list Z) (lon : list float) (R : Z)
    (keep center : bool) :
  0 < R ->
  get_approx_localtime ref lon R keep center
  = map (fun t => map (fun l => option_map
                                  (fun off => t + offset_ns R keep center off)
                                  (raw_offset l)) lon) ref.
Proof.
  intro HR. rewrite get_approx_localtime_entries.
  apply map_ext. intro t. apply map_ext. intro l.
  apply datetime_add_offset. exact HR.
Qed.

Lemma get_approx_localtime_raw (ref : list Z) (lon : list float) (R : Z)
    (center : bool) :
  get_approx_localtime ref lon R false center
  = map (fun t => map (fun l => option_map (fun off => t + off * ns_per_s)
                                  (raw_offset l)) lon) ref.
Proof.
  unfold get_approx_localtime, local_time_offset, astype_float_timedelta_s.
  cbn [td_unit td_ticks]. apply map_ext. intro t.
  rewrite !map_map. apply map_ext. intro l.
  unfold datetime_add, raw_offset.
  destruct (float_to_int64 (offset_seconds_float l)); cbn [option_map];
    [| reflexivity].
  rewrite cast_ticks_to_ns by (unfold ns_per_s; lia). reflexivity.
Qed.

(** With keep_resolution the offset is a multiple of R seconds: added to
    an instant it stays on that instant's R-second grid. *)
Lemma keep_resolution_on_grid (R off t : Z) :
  0 < R ->
  (t + offset_ns R true false off) mod (R * ns_per_s) = t mod (R * ns_per_s).
Proof.
  intro HR. unfold offset_ns.
  replace ((off / R * R + 0) * ns_per_s)
    with ((off / R) * (R * ns_per_s)) by ring.
  apply Z.mod_add. unfold ns_per_s. lia.
Qed.

Lemma within_one_second_whole_degrees :
  forallb within_one_second (zrange (-360) 721) = true.
Proof. vm_compute. reflexivity. Qed.

Lemma zrange_In (lo : Z) (n : nat) (d : Z) :
  lo <= d < lo + Z.of_nat n -> In d (zrange lo n).
Proof.
  intro H. unfold zrange. apply in_map_iff.
  exists (Z.to_nat (d - lo)). split; [lia |].
  apply in_seq. lia.
Qed.

End LocalTime.

(** ** Claims about [get_approx_localtime] *)

(** C1.  For every reference time, longitude array and positive
    resolution R, with keep_resolution and no centering every raw offset is
    replaced by its floor division by R re-multiplied by R.  That multiple of
    R is the start of the R-second bucket the raw offset lies in, for
    negative offsets too, and adding it to an instant leaves the instant on
    its R-second grid. *)
Theorem keep_resolution_floors_to_bucket (ref : list Z) (lon : list float)
    (R : Z) (HR : 0 < R) :
  get_approx_localtime ref lon R true false
  = map (fun t => map (fun l => option_map
                                  (fun off => t + (off / R * R) * ns_per_s)
                                  (raw_offset l)) lon) ref
  /\ (forall off, off / R * R <= off < off / R * R + R)
  /\ (forall off t, (t + (off / R * R) * ns_per_s) mod (R * ns_per_s)
                    = t mod (R * ns_per_s)).
Proof.
  split; [| split].
  - rewrite get_approx_localtime_seconds by exact HR.
    apply map_ext. intro t. apply map_ext. intro l.
    destruct (raw_offset l); cbn [option_map]; [| reflexivity].
    unfold offset_ns. do 2 f_equal. lia.
  - intro off.
    pose proof (Z.div_mod off R ltac:(lia)) as E.
    pose proof (Z.mod_pos_bound off R HR) as B. lia.
  - intros off t.
    replace (off / R * R * ns_per_s) with ((off / R) * (R * ns_per_s)) by ring.
    apply Z.mod_add. unfold ns_per_s. lia.
Qed.

Lemma keep_resolution_floors_to_bucket_witness :
  0 < 3600
  /\ get_approx_localtime [t2020] [180%float; (-1)%float] 3600 true false
     = [[Some (t2020 + 43200 * ns_per_s); Some (t2020 + (-3600) * ns_per_s)]].
Proof.
  split; [lia |].
  rewrite (proj1 (keep_resolution_floors_to_bucket [t2020]
                    [180%float; (-1)%float] 3600 ltac:(lia))).
  vm_compute. reflexivity.
Defined.

(** C2.  For four samples six hours apart from 2020-01-01T00:00Z and
    longitudes [0, 180] the inferred resolution is 21600 s, and with
    keep_resolution and no centering the local time at longitude 180 is
    exactly 12 hours ahead of the reference time for every sample; the
    averaging then pools the samples into the four times of day 00:00,
    06:00, 12:00 and 18:00. *)
Theorem six_hourly_example :
  _get_time_resolution six_hourly = inr 21600
  /\ get_approx_localtime six_hourly [0%float; 180%float] 21600 true false
     = map (fun t => [Some t; Some (t + 12 * 3600 * ns_per_s)]) six_hourly
  /\ match avg_diurnal_cycle example_dataset true false with
     | inr out => map fst out
                  = [0; 21600 * 1000000; 43200 * 1000000; 64800 * 1000000]
     | inl _ => False
     end.
Proof.
  repeat split; vm_compute; reflexivity.
Qed.

(** C4, counterexample.  At longitude 65 the linear relation gives 15600 s;
    the source's raw offset is 15599 s (the binary64 product is
    15599.999999999998 and the cast truncates). *)
Lemma raw_offset_at_65_not_linear :
  raw_offset (Z_to_float 65) = Some 15599
  /\ (linear_offset 65 == 15600)%Q
  /\ ~ (inject_Z 15599 == linear_offset 65)%Q
  /\ get_approx_localtime [0] [Z_to_float 65] 1 false false
     = [[Some (15599 * ns_per_s)]].
Proof.
  repeat split; try (vm_compute; reflexivity).
  vm_compute. discriminate.
Qed.

(** C4, amended.  The raw offset is the binary64 value of
    [((longitude * 12) / 180) * 3600] truncated toward zero to whole
    seconds, the same for every reference time; for a whole number of
    degrees between -360 and 360 it has the sign of the longitude, never
    exceeds [240 * degrees] in magnitude and is short of it by at most one
    second; for longitude 180 it is +12 hours and for -180 it is -12 hours. *)
Theorem raw_offset_truncated_linear :
  (forall ref lon R center,
      get_approx_localtime ref lon R false center
      = map (fun t => map (fun l => option_map (fun off => t + off * ns_per_s)
                                      (raw_offset l)) lon) ref)
  /\ (forall d, -360 <= d <= 360 ->
        exists s, raw_offset (Z_to_float d) = Some s
                  /\ Z.abs s <= Z.abs (240 * d)
                  /\ Z.abs (240 * d) - Z.abs s <= 1
                  /\ 0 <= s * d)
  /\ raw_offset 180 = Some (12 * 3600)
  /\ raw_offset (-180) = Some (- (12 * 3600))
  /\ raw_offset 0.00390625 = Some 0.
Proof.
  split; [exact get_approx_localtime_raw |].
  split; [| repeat split; vm_compute; reflexivity].
  intros d Hd.
  pose proof within_one_second_whole_degrees as Hall.
  rewrite forallb_forall in Hall.
  specialize (Hall d (zrange_In (-360) 721 d ltac:(lia))).
  unfold within_one_second in Hall.
  destruct (raw_offset (Z_to_float d)) as [s |]; [| discriminate].
  apply andb_prop in Hall. destruct Hall as [Hall H3].
  apply andb_prop in Hall. destruct Hall as [H1 H2].
  exists s. repeat split; [apply Z.leb_le, H1 | apply Z.leb_le, H2
                          | apply Z.leb_le, H3].
Qed.

Lemma raw_offset_truncated_linear_witness :
  -360 <= 65 <= 360
  /\ exists s, raw_offset (Z_to_float 65) = Some s
               /\ Z.abs s <= Z.abs (240 * 65)
               /\ Z.abs (240 * 65) - Z.abs s <= 1
               /\ 0 <= s * 65.
Proof.
  split; [lia |].
  apply (proj1 (proj2 raw_offset_truncated_linear) 65). lia.
Defined.

(** C5, counterexample.  With R = 5 the centred result is 2 seconds later
    than the uncentred one, not 5/2 seconds. *)
Lemma center_at_odd_resolution :
  get_approx_localtime [0] [0%float] 5 true false = [[Some 0]]
  /\ get_approx_localtime [0] [0%float] 5 true true = [[Some (2 * ns_per_s)]]
  /\ 2 * (2 * ns_per_s - 0) <> 5 * ns_per_s.
Proof.
  repeat split; try (vm_compute; reflexivity). vm_compute. discriminate.
Qed.

(** C5, amended.  For every reference time, longitude array and positive
    resolution R, the result with keep_resolution and center is the result
    with keep_resolution and no centering moved later by R/2 truncated to
    whole seconds; that is exactly R/2 seconds when R is even. *)
Theorem center_adds_truncated_half_resolution (ref : list Z)
    (lon : list float) (R : Z) (HR : 0 < R) :
  get_approx_localtime ref lon R true true
  = map (map (shift_seconds (Z.quot R 2)))
        (get_approx_localtime ref lon R true false)
  /\ (Z.even R = true -> 2 * Z.quot R 2 = R).
Proof.
  split.
  - rewrite !get_approx_localtime_seconds by exact HR.
    rewrite map_map. apply map_ext. intro t.
    rewrite map_map. apply map_ext. intro l.
    unfold shift_seconds, offset_ns.
    destruct (raw_offset l); cbn [option_map]; [| reflexivity].
    f_equal. lia.
  - intro He. apply Z.even_spec in He. destruct He as [h Hh]. subst R.
    rewrite (Z.mul_comm 2 h), Z.quot_mul by lia. lia.
Qed.

Lemma center_adds_truncated_half_resolution_witness :
  0 < 21600
  /\ get_approx_localtime six_hourly [0%float; 180%float] 21600 true true
     = map (map (shift_seconds (Z.quot 21600 2)))
           (get_approx_localtime six_hourly [0%float; 180%float] 21600 true
              false).
Proof.
  split; [lia |].
  apply (center_adds_truncated_half_resolution six_hourly
           [0%float; 180%float] 21600). lia.
Defined.

(** C6.  With keep_resolution false, center true gives the same result as
    center false, for [get_approx_localtime] on every input and for
    [avg_diurnal_cycle] called with these options. *)
Theorem center_ignored_without_keep_resolution :
  (forall ref lon R,
      get_approx_localtime ref lon R false true
      = get_approx_localtime ref lon R false false)
  /\ (forall ref lon R,
        get_approx_localtime_stacked ref lon R false true
        = get_approx_localtime_stacked ref lon R false false)
  /\ (forall dset,
        avg_diurnal_cycle dset false true = avg_diurnal_cycle dset false false).
Proof.
  repeat split.
Qed.

(** C7, counterexample.  At longitude 0 with keep_resolution and center and
    R = 21600 the local time is the reference time plus 10800 s. *)
Lemma longitude_zero_centered :
  get_approx_localtime [t2020] [0%float] 21600 true true
  = [[Some (t2020 + 10800 * ns_per_s)]]
  /\ get_approx_localtime [t2020] [0%float] 21600 true true
     <> [[Some t2020]].
Proof.
  split; [vm_compute; reflexivity | vm_compute; discriminate].
Qed.

(** C7, amended.  For every reference time coordinate and positive
    resolution R, the local time computed for longitude 0 equals the
    reference time when keep_resolution or center is false, and the
    reference time plus R/2 truncated to whole seconds when both are true. *)
Theorem longitude_zero_local_time (ref : list Z) (R : Z)
    (keep center : bool) (HR : 0 < R) :
  get_approx_localtime ref [0%float] R keep center
  = map (fun t => [Some (t + (if keep && center then Z.quot R 2 else 0)
                             * ns_per_s)]) ref.
Proof.
  rewrite get_approx_localtime_seconds by exact HR.
  apply map_ext. intro t. cbn [map].
  replace (raw_offset 0) with (Some 0) by (vm_compute; reflexivity).
  cbn [option_map]. unfold offset_ns.
  destruct keep, center; cbn [andb]; rewrite ?Z.div_0_l by lia;
    do 3 f_equal; lia.
Qed.

Lemma longitude_zero_local_time_witness :
  0 < 21600
  /\ get_approx_localtime six_hourly [0%float] 21600 true false
     = map (fun t => [Some (t + 0 * ns_per_s)]) six_hourly.
Proof.
  split; [lia |].
  apply (longitude_zero_local_time six_hourly 21600 true false). lia.
Defined.

(** ** Sampling-resolution inference *)

Section Resolution.

Lemma insert_unique_In (x y : Z) (l : list Z) :
  In y (insert_unique x l) <-> y = x \/ In y l.
Proof.
  induction l as [| a l IH]; cbn [insert_unique].
  - cbn. intuition.
  - destruct (x <? a) eqn:Hlt; [cbn; intuition |].
    destruct (x =? a) eqn:Heq.
    + apply Z.eqb_eq in Heq. subst a. cbn. intuition.
    + cbn [In]. rewrite IH. intuition.
Qed.

Lemma unique_In (y : Z) (l : list Z) : In y (unique l) <-> In y l.
Proof.
  induction l as [| a l IH]; cbn [unique fold_right]; [reflexivity |].
  fold (unique l). rewrite insert_unique_In, IH. cbn. intuition.
Qed.

Lemma increasing_tail (a : Z) (l : list Z) :
  increasing (a :: l) = true -> increasing l = true.
Proof.
  destruct l as [| b l]; [reflexivity |].
  cbn [increasing]. intro H. apply andb_prop in H. apply H.
Qed.

Lemma increasing_cons (a : Z) (l : list Z) :
  increasing l = true -> (forall b, In b l -> a < b) ->
  increasing (a :: l) = true.
Proof.
  destruct l as [| b l]; [reflexivity |].
  intros Hl Hlt. change (((a <? b) && increasing (b :: l))%bool = true).
  rewrite Hl, andb_true_r. apply Z.ltb_lt, Hlt. now left.
Qed.

Lemma increasing_head_lt (a : Z) (l : list Z) :
  increasing (a :: l) = true -> forall b, In b l -> a < b.
Proof.
  revert a. induction l as [| c l IH]; intros a H b Hb; [destruct Hb |].
  cbn [increasing] in H. apply andb_prop in H. destruct H as [Hac Hcl].
  apply Z.ltb_lt in Hac. destruct Hb as [-> | Hb]; [exact Hac |].
  specialize (IH c Hcl b Hb). lia.
Qed.

Lemma insert_unique_increasing (x : Z) (l : list Z) :
  increasing l = true -> increasing (insert_unique x l) = true.
Proof.
  induction l as [| a l IH]; intro Hl; [reflexivity |].
  cbn [insert_unique].
  destruct (x <? a) eqn:Hlt.
  - change (((x <? a) && increasing (a :: l))%bool = true).
    now rewrite Hlt, Hl.
  - destruct (x =? a) eqn:Heq; [exact Hl |].
    apply increasing_cons.
    + apply IH. eapply increasing_tail, Hl.
    + intros b Hb. apply (proj1 (insert_unique_In _ _ _)) in Hb.
      apply Z.ltb_ge in Hlt. apply Z.eqb_neq in Heq.
      destruct Hb as [-> | Hb]; [lia |].
      eapply increasing_head_lt; eassumption.
Qed.

Lemma unique_increasing (l : list Z) : increasing (unique l) = true.
Proof.
  induction l as [| a l IH]; [reflexivity |].
  cbn [unique fold_right]. fold (unique l).
  apply insert_unique_increasing, IH.
Qed.

(** [np.unique] leaves a strictly increasing array as it is. *)
Lemma unique_of_increasing (l : list Z) : increasing l = true -> unique l = l.
Proof.
  induction l as [| a l IH]; intro Hl; [reflexivity |].
  cbn [unique fold_right]. fold (unique l).
  rewrite IH by (eapply increasing_tail, Hl).
  destruct l as [| b l]; [reflexivity |].
  cbn [increasing] in Hl. apply andb_prop in Hl. destruct Hl as [Hab _].
  cbn [insert_unique]. now rewrite Hab.
Qed.

(** More than one distinct value is left exactly when two entries differ. *)
Lemma unique_length_gt_1 (l : list Z) :
  (1 < length (unique l))%nat
  <-> exists g1 g2, In g1 l /\ In g2 l /\ g1 <> g2.
Proof.
  pose proof (unique_increasing l) as Hinc.
  split.
  - intro Hlen.
    destruct (unique l) as [| a [| b u]] eqn:Hu; cbn in Hlen; try lia.
    exists a, b.
    assert (Ha : In a (unique l)) by (rewrite Hu; now left).
    assert (Hb : In b (unique l)) by (rewrite Hu; right; now left).
    apply (proj1 (unique_In _ _)) in Ha. apply (proj1 (unique_In _ _)) in Hb.
    cbn [increasing] in Hinc. apply andb_prop in Hinc.
    destruct Hinc as [Hab _]. apply Z.ltb_lt in Hab.
    repeat split; [exact Ha | exact Hb | lia].
  - intros (g1 & g2 & H1 & H2 & Hne).
    apply (proj2 (unique_In _ _)) in H1. apply (proj2 (unique_In _ _)) in H2.
    destruct (unique l) as [| a [| b u]]; cbn.
    + destruct H1.
    + cbn in H1, H2. intuition congruence.
    + lia.
Qed.

Lemma unique_single (l : list Z) (g : Z) :
  In g l -> (forall g', In g' l -> g' = g) -> unique l = [g].
Proof.
  intros Hg Hall.
  assert (Hlen : ~ (1 < length (unique l))%nat).
  { rewrite unique_length_gt_1. intros (g1 & g2 & H1 & H2 & Hne).
    apply Hall in H1. apply Hall in H2. congruence. }
  apply (proj2 (unique_In _ _)) in Hg.
  destruct (unique l) as [| a [| b u]] eqn:Hu; cbn in Hlen.
  - destruct Hg.
  - destruct Hg as [-> | []]. reflexivity.
  - lia.
Qed.

Lemma diff_short (time : list Z) : (length time < 2)%nat -> diff time = [].
Proof.
  destruct time as [| a [| b tl]]; cbn; intro H; try reflexivity. lia.
Qed.

Lemma diff_time_with_gaps (t0 : Z) (gaps_s : list Z) :
  diff (time_with_gaps t0 gaps_s) = map (fun g => g * ns_per_s) gaps_s.
Proof.
  revert t0. induction gaps_s as [| g tl IH]; intro t0; [reflexivity |].
  cbn [time_with_gaps map].
  specialize (IH (t0 + g * ns_per_s)).
  destruct (time_with_gaps (t0 + g * ns_per_s) tl) as [| b rest] eqn:Htw.
  - destruct tl; discriminate Htw.
  - assert (Hb : b = t0 + g * ns_per_s) by (destruct tl; cbn in Htw; congruence).
    cbn [diff]. cbn [diff] in IH. rewrite IH. f_equal. lia.
Qed.

(** The three outcomes of [_get_time_resolution], on the consecutive gaps
    of the coordinate as it is given. *)
Lemma get_time_resolution_cases (time : list Z) :
  (_get_time_resolution time = inl (ValueError not_evenly_spaced_msg)
   <-> exists g1 g2, In g1 (diff time) /\ In g2 (diff time) /\ g1 <> g2)
  /\ (forall g, In g (diff time) -> (forall g', In g' (diff time) -> g' = g) ->
        _get_time_resolution time = inr (g / ns_per_s))
  /\ (diff time = [] -> _get_time_resolution time = inl IndexError).
Proof.
  unfold _get_time_resolution. rewrite length_map.
  split; [| split].
  - rewrite <- unique_length_gt_1.
    destruct (1 <? length (unique (diff time)))%nat eqn:Hlen.
    + apply Nat.ltb_lt in Hlen. tauto.
    + apply Nat.ltb_ge in Hlen.
      split; [| lia].
      destruct (map _ _); discriminate.
  - intros g Hg Hall. rewrite (unique_single _ g Hg Hall). cbn.
    rewrite cast_ticks_floor by (unfold ns_per_s; lia).
    now rewrite Z.mul_1_r.
  - intros ->. reflexivity.
Qed.

End Resolution.

(** C3, counterexample.  In the coordinate 0 s, 60 s, 60 s, 120 s the
    sorted, deduplicated timestamps 0 s, 60 s, 120 s have the single gap
    60 s, yet [_get_time_resolution] raises the ValueError: the gaps of the
    coordinate as given are 60 s, 0 s and 60 s. *)
Lemma repeated_timestamp_raises :
  let time := [0; 60 * ns_per_s; 60 * ns_per_s; 120 * ns_per_s] in
  unique time = [0; 60 * ns_per_s; 120 * ns_per_s]
  /\ unique (diff (unique time)) = [60 * ns_per_s]
  /\ diff time = [60 * ns_per_s; 0; 60 * ns_per_s]
  /\ _get_time_resolution time = inl (ValueError not_evenly_spaced_msg)
  /\ _get_time_resolution time <> inr 60.
Proof.
  cbv zeta. repeat split; try (vm_compute; reflexivity). discriminate.
Qed.

(** C3, amended.  [_get_time_resolution] raises the ValueError whose
    message says the samples are not evenly spaced in time if and only if
    the consecutive gaps of the time coordinate, taken in the order the
    coordinate has, have more than one distinct value (it is the gaps that
    are sorted and deduplicated, not the timestamps); when they have a
    single distinct value it returns that gap in whole seconds.  For a
    strictly increasing coordinate these are the gaps between its sorted,
    deduplicated timestamps.  Gaps [60,60,60] give 60 and gaps [60,120,60]
    raise the error. *)
Theorem get_time_resolution_error_iff (time : list Z) :
  (_get_time_resolution time = inl (ValueError not_evenly_spaced_msg)
   <-> exists g1 g2, In g1 (diff time) /\ In g2 (diff time) /\ g1 <> g2)
  /\ (forall g, In g (diff time) -> (forall g', In g' (diff time) -> g' = g) ->
        _get_time_resolution time = inr (g / ns_per_s))
  /\ (increasing time = true -> diff (unique time) = diff time)
  /\ (forall t0, _get_time_resolution (time_with_gaps t0 [60; 60; 60]) = inr 60)
  /\ (forall t0, _get_time_resolution (time_with_gaps t0 [60; 120; 60])
                 = inl (ValueError not_evenly_spaced_msg)).
Proof.
  destruct (get_time_resolution_cases time) as (Herr & Hok & _).
  split; [exact Herr |]. split; [exact Hok |].
  split; [intro Hinc; now rewrite (unique_of_increasing time Hinc) |].
  split; intro t0; unfold _get_time_resolution;
    rewrite diff_time_with_gaps; vm_compute; reflexivity.
Qed.

Lemma get_time_resolution_error_iff_witness :
  In (21600 * ns_per_s) (diff six_hourly)
  /\ (forall g', In g' (diff six_hourly) -> g' = 21600 * ns_per_s)
  /\ _get_time_resolution six_hourly = inr (21600 * ns_per_s / ns_per_s).
Proof.
  assert (Hall : forall g', In g' (diff six_hourly) -> g' = 21600 * ns_per_s).
  { intros g' Hg. vm_compute in Hg. vm_compute. intuition congruence. }
  assert (Hin : In (21600 * ns_per_s) (diff six_hourly))
    by (vm_compute; tauto).
  split; [exact Hin |]. split; [exact Hall |].
  apply (proj1 (proj2 (get_time_resolution_error_iff six_hourly))
           (21600 * ns_per_s) Hin Hall).
Defined.

(** C10.  For every time coordinate with fewer than two entries the array
    of consecutive gaps is empty, [_get_time_resolution] fails with an
    IndexError instead of returning a resolution, and so does
    [avg_diurnal_cycle] on every dataset with that coordinate. *)
Theorem get_time_resolution_short_coordinate (time : list Z)
    (Hshort : (length time < 2)%nat) :
  diff time = []
  /\ _get_time_resolution time = inl IndexError
  /\ (forall lon slices keep center,
        avg_diurnal_cycle (mk_dataset time lon slices) keep center
        = inl IndexError).
Proof.
  pose proof (diff_short time Hshort) as Hd.
  destruct (get_time_resolution_cases time) as (_ & _ & Hidx).
  specialize (Hidx Hd).
  repeat split; [exact Hd | exact Hidx |].
  intros lon slices keep center. unfold avg_diurnal_cycle.
  cbn [ds_time]. now rewrite Hidx.
Qed.

Lemma get_time_resolution_short_coordinate_witness :
  (length [t2020] < 2)%nat
  /\ _get_time_resolution [t2020] = inl IndexError.
Proof.
  split; [cbn; lia |].
  apply (get_time_resolution_short_coordinate [t2020]). cbn. lia.
Defined.

(** ** Grouping by local time of day *)

Section Grouping.

Lemma combine_map_same {A B C : Type} (f : A -> B) (g : A -> C)
    (l : list A) :
  combine (map f l) (map g l) = map (fun x => (f x, g x)) l.
Proof.
  induction l as [| x l IH]; cbn; [reflexivity | now rewrite IH].
Qed.

Lemma stacked_index_bounds (dset : Dataset) (p : nat * nat) :
  In p (stacked_index dset) ->
  (fst p < length (ds_lon dset))%nat /\ (snd p < length (ds_time dset))%nat.
Proof.
  destruct p as [l t]. unfold stacked_index. rewrite in_prod_iff, !in_seq.
  cbn. lia.
Qed.

(** After stacking, the element-by-element sum of line 50 is the broadcast
    sum read at the (time, longitude) position of each stacked sample. *)
Lemma stacked_local_time (dset : Dataset) (R : Z) (keep center : bool) :
  get_approx_localtime_stacked (stacked_time dset) (stacked_lon dset) R keep
    center
  = map (fun p => local_time_at dset R keep center (snd p) (fst p))
        (stacked_index dset).
Proof.
  unfold get_approx_localtime_stacked.
  rewrite local_time_offset_elementwise. cbn [td_unit td_ticks].
  unfold stacked_time, stacked_lon.
  rewrite map_map, combine_map_same, map_map. cbn [fst snd].
  apply map_ext_in. intros p Hp.
  apply stacked_index_bounds in Hp. destruct Hp as [Hl Ht].
  unfold local_time_at. rewrite get_approx_localtime_entries.
  set (row := fun t => map (fun l => datetime_add t (offset_unit R keep center)
                                       (offset_tick R keep center l))
                           (ds_lon dset)).
  rewrite (nth_indep (map row (ds_time dset)) [] (row 0))
    by (now rewrite length_map).
  rewrite map_nth. unfold row.
  set (entry := fun l => datetime_add (nth (snd p) (ds_time dset) 0)
                           (offset_unit R keep center)
                           (offset_tick R keep center l)).
  rewrite (nth_indep (map entry (ds_lon dset)) None (entry 0%float))
    by (now rewrite length_map).
  rewrite map_nth. reflexivity.
Qed.

(** The members of a group, when keys and values are read off one index. *)
Lemma group_values_map {A : Type} (K : A -> option Z) (V : A -> float)
    (k : Z) (idx : list A) :
  group_values (map K idx) k (map V idx)
  = map V (filter (fun p => key_is k (K p)) idx).
Proof.
  unfold group_values. rewrite combine_map_same.
  induction idx as [| p idx IH]; [reflexivity |].
  cbn [map filter fst snd]. destruct (key_is k (K p)); cbn [map]; now rewrite IH.
Qed.

Lemma valid_keys_In {A : Type} (K : A -> option Z) (k : Z) (idx : list A) :
  In k (valid_keys (map K idx)) -> exists p, In p idx /\ K p = Some k.
Proof.
  induction idx as [| p idx IH]; cbn [map valid_keys]; [intros [] |].
  destruct (K p) as [k' |] eqn:HK.
  - intros [-> | Hin].
    + exists p. split; [now left | exact HK].
    + destruct (IH Hin) as (q & Hq & HKq). exists q. split; [now right | exact HKq].
  - intro Hin. destruct (IH Hin) as (q & Hq & HKq).
    exists q. split; [now right | exact HKq].
Qed.


(** Line 43 is reached with a dtype string numpy accepts. *)
Lemma resolution_dtype_ok (R : Z) (keep : bool) :
  keep = false \/ 0 < R ->
  (if keep then resolution_dtype_error R else None) = None.
Proof.
  intros [-> | HR]; [reflexivity |].
  destruct keep; [| reflexivity]. unfold resolution_dtype_error.
  destruct (Z.ltb_spec R 0); [lia |].
  destruct (Z.eqb_spec R 0); [lia | reflexivity].
Qed.

Lemma resolution_dtype_ok_inv (R : Z) (keep : bool) :
  (if keep then resolution_dtype_error R else None) = None ->
  keep = false \/ 0 < R.
Proof.
  destruct keep; [| now left]. unfold resolution_dtype_error.
  destruct (Z.ltb_spec R 0); [discriminate |].
  destruct (Z.eqb_spec R 0); [discriminate |]. intros _. right. lia.
Qed.

(** The output of [avg_diurnal_cycle] bucket by bucket. *)
Lemma avg_diurnal_cycle_buckets (dset : Dataset) (R : Z)
    (keep center : bool) :
  _get_time_resolution (ds_time dset) = inr R ->
  keep = false \/ 0 < R ->
  avg_diurnal_cycle dset keep center
  = inr (map (fun k =>
                (k, map (fun slice =>
                           nanmean (map (fun p => slice (snd p) (fst p))
                                        (bucket_samples dset R keep center k)))
                        (ds_slices dset)))
             (unique (valid_keys
                        (map (fun p => time_of_day
                                         (local_time_at dset R keep center
                                            (snd p) (fst p)))
                             (stacked_index dset))))).
Proof.
  intros HR Hok. unfold avg_diurnal_cycle.
  rewrite HR, (resolution_dtype_ok R keep Hok).
  rewrite stacked_local_time, map_map. unfold groupby_mean.
  f_equal. apply map_ext. intro k. f_equal.
  rewrite map_map. apply map_ext. intro slice.
  unfold stacked_values, bucket_samples.
  now rewrite group_values_map.
Qed.






End Grouping.

(** ** [histogram_utils] *)

Section CondHist2d.
Import HistogramUtils.

Variable A : Type.
Variables (sub div : A -> A -> A) (reduce_add : list A -> A).
Variable filler : A.

Lemma diff1_length (l : list A) : length (diff1 A sub l) = (length l - 1)%nat.
Proof.
  induction l as [| a [| b tl] IH]; [reflexivity | reflexivity |].
  change (diff1 A sub (a :: b :: tl)) with (sub b a :: diff1 A sub (b :: tl)).
  cbn [length] in *. rewrite IH. lia.
Qed.

Lemma diff1_nth (l : list A) (j : nat) :
  (S j < length l)%nat ->
  nth j (diff1 A sub l) filler = sub (nth (S j) l filler) (nth j l filler).
Proof.
  revert j. induction l as [| a [| b tl] IH]; intros j Hj; cbn [length] in Hj;
    try lia.
  change (diff1 A sub (a :: b :: tl)) with (sub b a :: diff1 A sub (b :: tl)).
  destruct j as [| j]; [reflexivity |].
  cbn [nth]. rewrite IH by (cbn [length]; lia). reflexivity.
Qed.

Lemma broadcast_dim_same (n : nat) : broadcast_dim n n = Some n.
Proof. unfold broadcast_dim. now rewrite Nat.eqb_refl. Qed.

Lemma broadcast_dim_one_r (n : nat) : broadcast_dim n 1 = Some n.
Proof.
  unfold broadcast_dim. destruct (Nat.eqb n 1) eqn:E; [| reflexivity].
  apply Nat.eqb_eq in E. now subst.
Qed.

Lemma broadcast_dim_one_l (n : nat) : broadcast_dim 1 n = Some n.
Proof.
  unfold broadcast_dim. destruct (Nat.eqb 1 n) eqn:E; [| reflexivity].
  apply Nat.eqb_eq in E. now subst.
Qed.

Lemma broadcast_dim_none (n m : nat) :
  broadcast_dim n m = None <-> n <> m /\ n <> 1%nat /\ m <> 1%nat.
Proof.
  unfold broadcast_dim.
  destruct (Nat.eqb n m) eqn:E1; [apply Nat.eqb_eq in E1 |
                                  apply Nat.eqb_neq in E1].
  - split; [discriminate | tauto].
  - destruct (Nat.eqb n 1) eqn:E2; [apply Nat.eqb_eq in E2 |
                                    apply Nat.eqb_neq in E2].
    + split; [discriminate | tauto].
    + destruct (Nat.eqb m 1) eqn:E3; [apply Nat.eqb_eq in E3 |
                                      apply Nat.eqb_neq in E3].
      * split; [discriminate | tauto].
      * tauto.
Qed.

Lemma broadcast_index_lt (n i : nat) : (i < n)%nat -> broadcast_index n i = i.
Proof.
  intro H. unfold broadcast_index.
  destruct (Nat.eqb n 1) eqn:E; [| reflexivity].
  apply Nat.eqb_eq in E. lia.
Qed.

Lemma divide_error (a b : array2 A) (e : hist_exception) :
  divide A div a b = inl e -> e = BroadcastError.
Proof.
  unfold divide.
  destruct (broadcast_dim (shape0 a) (shape0 b));
    destruct (broadcast_dim (shape1 a) (shape1 b)); congruence.
Qed.

(** X12.  [get_cond_hist2d] raises the unbound-local error exactly when
    [norm_axis] is neither ['x'] nor ['y'], whatever the arrays are. *)
Theorem get_cond_hist2d_other_axis (counts : array2 A) (norm_bins : list A)
    (norm_axis : string) :
  get_cond_hist2d A sub div reduce_add filler counts norm_bins norm_axis
  = inl UnboundLocalError
  <-> norm_axis <> "x"%string /\ norm_axis <> "y"%string.
Proof.
  unfold get_cond_hist2d.
  destruct (String.eqb norm_axis "x") eqn:Ex.
  - apply String.eqb_eq in Ex. split; [| tauto].
    destruct (divide A div counts _) as [e | q] eqn:Hd.
    + apply divide_error in Hd. subst e. discriminate.
    + intro H. apply divide_error in H. discriminate.
  - apply String.eqb_neq in Ex.
    destruct (String.eqb norm_axis "y") eqn:Ey.
    + apply String.eqb_eq in Ey. split; [| tauto].
      destruct (divide A div counts _) as [e | q] eqn:Hd.
      * apply divide_error in Hd. subst e. discriminate.
      * intro H. apply divide_error in H. discriminate.
    + apply String.eqb_neq in Ey. tauto.
Qed.

(** X13.  With [norm_axis = 'x'] the bin widths run along the columns and the
    sums are taken over each row.  The call fails (broadcasting) exactly
    when the number of widths differs from the number of columns and
    neither is 1; when they agree the result has the shape of the counts
    and entry (i, j) is counts[i, j] / width[j] / sum of row i. *)
Theorem get_cond_hist2d_x (counts : array2 A) (norm_bins : list A) :
  let widths := (length norm_bins - 1)%nat in
  let result :=
    get_cond_hist2d A sub div reduce_add filler counts norm_bins "x" in
  (result = inl BroadcastError
   <-> shape1 counts <> widths /\ shape1 counts <> 1%nat /\ widths <> 1%nat)
  /\ (shape1 counts = widths ->
      exists out,
        result = inr out
        /\ shape0 out = shape0 counts /\ shape1 out = shape1 counts
        /\ forall i j, (i < shape0 counts)%nat -> (j < shape1 counts)%nat ->
             item out i j
             = div (div (item counts i j)
                        (sub (nth (S j) norm_bins filler)
                             (nth j norm_bins filler)))
                   (reduce_add (map (fun j' => item counts i j')
                                    (seq 0 (shape1 counts))))).
Proof.
  cbv zeta. unfold get_cond_hist2d. cbn [String.eqb Ascii.eqb Bool.eqb].
  unfold divide, expand_dims0, sum_axis1. cbn [shape0 shape1 item].
  rewrite ?broadcast_dim_one_r, diff1_length.
  destruct (broadcast_dim (shape1 counts) (length norm_bins - 1)) as [c |] eqn:Hb;
    cbn [shape0 shape1 item]; rewrite ?broadcast_dim_same, ?broadcast_dim_one_r.
  - split.
    + split; [discriminate |]. intro H. apply broadcast_dim_none in H.
      congruence.
    + intro Hc. rewrite <- Hc, broadcast_dim_same in Hb.
      injection Hb as <-.
      eexists. split; [reflexivity |]. cbn [shape0 shape1 item].
      repeat split.
      intros i j Hi Hj.
      rewrite ?(broadcast_index_lt _ i Hi), ?(broadcast_index_lt _ j Hj).
      rewrite ?broadcast_index_lt by lia.
      rewrite diff1_nth by lia. reflexivity.
  - apply broadcast_dim_none in Hb. split; [tauto |].
    intro Hc. tauto.
Qed.

(** X14.  With [norm_axis = 'y'] the bin widths run along the rows and the sums
    are taken over each column.  The call fails exactly when the number of
    widths differs from the number of rows and neither is 1; when they
    agree the result has the shape of the counts and entry (i, j) is
    counts[i, j] / width[i] / sum of column j. *)
Theorem get_cond_hist2d_y (counts : array2 A) (norm_bins : list A) :
  let widths := (length norm_bins - 1)%nat in
  let result :=
    get_cond_hist2d A sub div reduce_add filler counts norm_bins "y" in
  (result = inl BroadcastError
   <-> shape0 counts <> widths /\ shape0 counts <> 1%nat /\ widths <> 1%nat)
  /\ (shape0 counts = widths ->
      exists out,
        result = inr out
        /\ shape0 out = shape0 counts /\ shape1 out = shape1 counts
        /\ forall i j, (i < shape0 counts)%nat -> (j < shape1 counts)%nat ->
             item out i j
             = div (div (item counts i j)
                        (sub (nth (S i) norm_bins filler)
                             (nth i norm_bins filler)))
                   (reduce_add (map (fun i' => item counts i' j)
                                    (seq 0 (shape0 counts))))).
Proof.
  cbv zeta. unfold get_cond_hist2d. cbn [String.eqb Ascii.eqb Bool.eqb].
  unfold divide, expand_dims1, sum_axis0. cbn [shape0 shape1 item].
  rewrite ?broadcast_dim_one_r, diff1_length.
  destruct (broadcast_dim (shape0 counts) (length norm_bins - 1)) as [c |] eqn:Hb;
    cbn [shape0 shape1 item]; rewrite ?broadcast_dim_same, ?broadcast_dim_one_r.
  - split.
    + split; [discriminate |]. intro H. apply broadcast_dim_none in H.
      congruence.
    + intro Hc. rewrite <- Hc, broadcast_dim_same in Hb.
      injection Hb as <-.
      eexists. split; [reflexivity |]. cbn [shape0 shape1 item].
      repeat split.
      intros i j Hi Hj.
      rewrite ?(broadcast_index_lt _ i Hi), ?(broadcast_index_lt _ j Hj).
      rewrite ?broadcast_index_lt by lia.
      rewrite diff1_nth by lia. reflexivity.
  - apply broadcast_dim_none in Hb. split; [tauto |].
    intro Hc. tauto.
Qed.

End CondHist2d.

Section BinCenters.
Import HistogramUtils.

Variable A : Type.
Variables (add div : A -> A -> A) (two filler : A).

Lemma combine_removelast_tl (a b : A) (tl : list A) :
  combine (removelast (a :: b :: tl)) (b :: tl)
  = (a, b) :: combine (removelast (b :: tl)) tl.
Proof. reflexivity. Qed.

(** X15.  [get_bin_centers] returns one value less than there are edges (none
    for an empty or one-edge array, without error), and its i-th value
    combines edges i and i+1. *)
Theorem get_bin_centers_entries (bin_edges : list A) :
  length (get_bin_centers A add div two bin_edges)
  = (length bin_edges - 1)%nat
  /\ forall i, (S i < length bin_edges)%nat ->
       nth i (get_bin_centers A add div two bin_edges) filler
       = div (add (nth i bin_edges filler) (nth (S i) bin_edges filler)) two.
Proof.
  unfold get_bin_centers.
  induction bin_edges as [| a [| b rest] IH].
  - split; [reflexivity | cbn; intros; lia].
  - split; [reflexivity | cbn; intros; lia].
  - rewrite combine_removelast_tl. cbn [map length fst snd tl].
    cbn [tl length] in IH. destruct IH as [IHlen IHnth].
    split; [rewrite IHlen; lia |].
    intros [| i] Hi; [reflexivity |].
    cbn [nth]. rewrite IHnth by lia. reflexivity.
Qed.

End BinCenters.

Lemma get_cond_hist2d_x_witness :
  let counts := FloatHistogram.of_lists 2 2
                  [[1%float; 3%float]; [2%float; 2%float]] in
  let norm_bins := [0%float; 1%float; 3%float] in
  HistogramUtils.shape1 counts = (length norm_bins - 1)%nat
  /\ exists out,
       FloatHistogram.get_cond_hist2d counts norm_bins "x" = inr out
       /\ FloatHistogram.to_lists out
          = [[0.25%float; 0.375%float]; [0.5%float; 0.25%float]].
Proof.
  cbv zeta. split; [reflexivity |].
  destruct (proj2 (get_cond_hist2d_x float PrimFloat.sub PrimFloat.div
                     FloatHistogram.float_sum nan
                     (FloatHistogram.of_lists 2 2
                        [[1%float; 3%float]; [2%float; 2%float]])
                     [0%float; 1%float; 3%float]) eq_refl)
    as (out & Hout & _).
  exists out. split; [exact Hout |].
  unfold FloatHistogram.get_cond_hist2d in *.
  vm_compute in Hout. injection Hout as <-. vm_compute. reflexivity.
Defined.

Lemma get_cond_hist2d_other_axis_witness :
  "z"%string <> "x"%string /\ "z"%string <> "y"%string
  /\ FloatHistogram.get_cond_hist2d
       (FloatHistogram.of_lists 1 3 [[1%float; 2%float; 3%float]])
       [0%float; 1%float] "z"
     = inl HistogramUtils.UnboundLocalError.
Proof.
  split; [discriminate |]. split; [discriminate |].
  apply (proj2 (get_cond_hist2d_other_axis float PrimFloat.sub PrimFloat.div
                  FloatHistogram.float_sum nan
                  (FloatHistogram.of_lists 1 3 [[1%float; 2%float; 3%float]])
                  [0%float; 1%float] "z")).
  split; discriminate.
Defined.

Lemma get_cond_hist2d_y_witness :
  let counts := FloatHistogram.of_lists 2 2
                  [[1%float; 3%float]; [2%float; 2%float]] in
  let norm_bins := [0%float; 1%float; 3%float] in
  HistogramUtils.shape0 counts = (length norm_bins - 1)%nat
  /\ exists out,
       FloatHistogram.get_cond_hist2d counts norm_bins "y" = inr out
       /\ HistogramUtils.shape0 out = 2%nat /\ HistogramUtils.shape1 out = 2%nat.
Proof.
  cbv zeta. split; [reflexivity |].
  destruct (proj2 (get_cond_hist2d_y float PrimFloat.sub PrimFloat.div
                     FloatHistogram.float_sum nan
                     (FloatHistogram.of_lists 2 2
                        [[1%float; 3%float]; [2%float; 2%float]])
                     [0%float; 1%float; 3%float]) eq_refl)
    as (out & Hout & H0 & H1 & _).
  exists out. split; [exact Hout |]. split; [exact H0 | exact H1].
Defined.

Lemma get_bin_centers_entries_witness :
  (S 1 < length [0%float; 1%float; 3%float])%nat
  /\ nth 1 (FloatHistogram.get_bin_centers [0%float; 1%float; 3%float]) nan
     = ((1 + 3) / 2)%float.
Proof.
  split; [cbn; lia |].
  apply (proj2 (get_bin_centers_entries float PrimFloat.add PrimFloat.div
                  2%float nan [0%float; 1%float; 3%float]) 1%nat).
  cbn. lia.
Defined.

(** ** Further properties of [get_approx_localtime] *)

Section LocalTimeMore.

Lemma get_approx_localtime_row (ref : list Z) (lon : list float) (R : Z)
    (keep center : bool) (i : nat) (t : Z) :
  nth_error ref i = Some t ->
  nth i (get_approx_localtime ref lon R keep center) []
  = map (fun l => datetime_add t (offset_unit R keep center)
                    (offset_tick R keep center l)) lon.
Proof.
  intro Hi. rewrite get_approx_localtime_entries.
  apply nth_error_nth. rewrite nth_error_map, Hi. reflexivity.
Qed.

Lemma offset_tick_nat (R : Z) (keep center : bool) (l : float) :
  offset_tick R keep center l = None <-> raw_offset l = None.
Proof.
  unfold offset_tick, local_time_offset, raw_offset, timedelta_add_scalar,
    timedelta_mul, dataarray_store, astype_timedelta,
    astype_float_timedelta_s.
  destruct keep; [destruct center |]; cbn [td_unit td_ticks map hd];
    destruct (float_to_int64 (offset_seconds_float l));
    cbn [option_map nat_add]; split; congruence.
Qed.

End LocalTimeMore.

(** X1.  With keep_time_resolution and a positive resolution R, every local
    time that is not NaT differs from its reference time by a whole
    multiple of R seconds, plus R/2 truncated to whole seconds when center
    is set: the result stays on the R-second grid of the reference time. *)
Theorem keep_resolution_stays_on_grid (ref : list Z) (lon : list float)
    (R : Z) (center : bool) (i j : nat) (t v : Z)
    (HR : 0 < R)
    (Hi : nth_error ref i = Some t)
    (Hj : nth_error (nth i (get_approx_localtime ref lon R true center) []) j
          = Some (Some v)) :
  (v - t) mod (R * ns_per_s)
  = (if center then Z.quot R 2 else 0) * ns_per_s.
Proof.
  rewrite (get_approx_localtime_row ref lon R true center i t Hi) in Hj.
  rewrite nth_error_map in Hj.
  destruct (nth_error lon j) as [l |]; [| discriminate].
  cbn [option_map] in Hj. injection Hj as Hj.
  rewrite datetime_add_offset in Hj by exact HR.
  destruct (raw_offset l) as [off |]; [| discriminate].
  cbn [option_map] in Hj. injection Hj as <-.
  unfold offset_ns.
  assert (Hns : 0 < ns_per_s) by (unfold ns_per_s; lia).
  set (c := if center then Z.quot R 2 else 0).
  replace (t + (off / R * R + c) * ns_per_s - t)
    with (c * ns_per_s + (off / R) * (R * ns_per_s)) by ring.
  rewrite Z.mod_add by nia.
  apply Z.mod_small.
  assert (Hc : 0 <= c < R).
  { unfold c. destruct center; [| lia].
    pose proof (Z.quot_div_nonneg R 2 ltac:(lia) ltac:(lia)) as Hq.
    rewrite Hq. split; [apply Z.div_pos; lia |].
    apply Z.div_lt_upper_bound; lia. }
  nia.
Qed.

Lemma keep_resolution_stays_on_grid_witness :
  0 < 3600
  /\ nth_error six_hourly 1 = Some (t2020 + 21600 * ns_per_s)
  /\ nth_error (nth 1 (get_approx_localtime six_hourly [65%float] 3600 true
                         true) []) 0
     = Some (Some (t2020 + 21600 * ns_per_s + (4 * 3600 + 1800) * ns_per_s))
  /\ (t2020 + 21600 * ns_per_s + (4 * 3600 + 1800) * ns_per_s
      - (t2020 + 21600 * ns_per_s)) mod (3600 * ns_per_s)
     = Z.quot 3600 2 * ns_per_s.
Proof.
  split; [lia |]. split; [vm_compute; reflexivity |].
  split; [vm_compute; reflexivity |].
  apply (keep_resolution_stays_on_grid six_hourly [65%float] 3600 true 1 0).
  - lia.
  - vm_compute. reflexivity.
  - vm_compute. reflexivity.
Defined.

(** X2.  For a positive resolution, or any resolution when
    keep_time_resolution is off, the result has one row per reference time
    and one column per longitude, and an entry is NaT exactly when the
    float offset of its longitude has no int64 value.  NaN and infinite
    longitudes are such values: they give NaT, not an error. *)
Theorem local_time_shape_and_nat (ref : list Z) (lon : list float) (R : Z)
    (keep center : bool) (HR : keep = false \/ 0 < R) :
  let result := get_approx_localtime ref lon R keep center in
  length result = length ref
  /\ (forall i t, nth_error ref i = Some t ->
        length (nth i result []) = length lon
        /\ forall j l, nth_error lon j = Some l ->
             exists x, nth_error (nth i result []) j = Some x
                       /\ (x = None <-> raw_offset l = None))
  /\ raw_offset nan = None
  /\ raw_offset infinity = None
  /\ raw_offset neg_infinity = None.
Proof.
  cbv zeta. split; [| split].
  - rewrite get_approx_localtime_entries. apply length_map.
  - intros i t Hi. rewrite (get_approx_localtime_row _ _ _ _ _ i t Hi).
    split; [apply length_map |].
    intros j l Hj. rewrite nth_error_map, Hj. cbn [option_map].
    eexists. split; [reflexivity |].
    rewrite <- (offset_tick_nat R keep center l).
    unfold datetime_add.
    destruct (offset_tick R keep center l); cbn [option_map];
      split; congruence.
  - repeat split; vm_compute; reflexivity.
Qed.

Lemma local_time_shape_and_nat_witness :
  (true = false \/ 0 < 3600)
  /\ nth_error [t2020] 0 = Some t2020
  /\ length (nth 0 (get_approx_localtime [t2020] [nan; 180%float] 3600 true
                      false) [])
     = length [nan; 180%float].
Proof.
  split; [right; lia |]. split; [reflexivity |].
  apply (proj1 (proj2 (local_time_shape_and_nat [t2020] [nan; 180%float]
                         3600 true false (or_intror eq_refl)))
           0%nat t2020).
  reflexivity.
Defined.

(** X3.  Moving every reference time by the same amount moves every local time
    by that amount, for every option: the offsets do not depend on the
    reference time. *)
Theorem get_approx_localtime_shift (ref : list Z) (lon : list float)
    (R : Z) (keep center : bool) (delta : Z) :
  get_approx_localtime (map (fun t => t + delta) ref) lon R keep center
  = map (map (option_map (fun v => v + delta)))
        (get_approx_localtime ref lon R keep center).
Proof.
  rewrite !get_approx_localtime_entries, !map_map.
  apply map_ext. intro t. rewrite map_map. apply map_ext. intro l.
  unfold datetime_add.
  destruct (offset_tick R keep center l); cbn [option_map]; [| reflexivity].
  f_equal. lia.
Qed.

(** ** Further properties of [_get_time_resolution] *)

Section ResolutionMore.

Lemma unique_nil (l : list Z) : unique l = [] -> l = [].
Proof.
  destruct l as [| a l]; [reflexivity |]. intro Hu.
  assert (Ha : In a (unique (a :: l))) by (apply unique_In; now left).
  rewrite Hu in Ha. destruct Ha.
Qed.

Lemma diff_nil_short (time : list Z) :
  diff time = [] -> (length time < 2)%nat.
Proof.
  destruct time as [| a [| b rest]]; cbn; intro H; try lia. discriminate.
Qed.

Lemma diff_shift (time : list Z) (delta : Z) :
  diff (map (fun t => t + delta) time) = diff time.
Proof.
  induction time as [| a [| b rest] IH]; [reflexivity | reflexivity |].
  change (diff (a :: b :: rest)) with ((b - a) :: diff (b :: rest)).
  rewrite <- IH. cbn [map].
  change (diff (a + delta :: b + delta :: map (fun t => t + delta) rest))
    with ((b + delta - (a + delta))
          :: diff (b + delta :: map (fun t => t + delta) rest)).
  apply f_equal2; [lia | reflexivity].
Qed.

Lemma floor_seconds (g R : Z) :
  R * ns_per_s <= g < (R + 1) * ns_per_s <-> g / ns_per_s = R.
Proof.
  assert (Hns : 0 < ns_per_s) by (unfold ns_per_s; lia).
  pose proof (Z.div_mod g ns_per_s ltac:(lia)) as E.
  pose proof (Z.mod_pos_bound g ns_per_s Hns) as B.
  split; intro H; nia.
Qed.

Lemma increasing_NoDup (l : list Z) : increasing l = true -> NoDup l.
Proof.
  induction l as [| a l IH]; intro H; constructor.
  - intro Hin. pose proof (increasing_head_lt a l H a Hin). lia.
  - apply IH. eapply increasing_tail, H.
Qed.


Lemma time_of_day_range (t : datetime64) (k : Z) :
  time_of_day t = Some k -> 0 <= k < 86400 * 1000000.
Proof.
  destruct t as [ns |]; [| discriminate].
  unfold time_of_day. cbn [option_map]. intro H. injection H as <-.
  assert (Hd : 0 < ns_per_day) by (unfold ns_per_day, ns_per_s; lia).
  pose proof (Z.mod_pos_bound ns ns_per_day Hd) as B.
  unfold ns_per_us. split.
  - apply Z.div_pos; lia.
  - apply Z.div_lt_upper_bound; [lia |].
    unfold ns_per_day, ns_per_s in *. lia.
Qed.

Lemma evenly_spaced_nth (time : list Z) (P : Z) :
  (forall d, In d (diff time) -> d = P) ->
  forall i, (i < length time)%nat ->
            nth i time 0 = nth 0 time 0 + Z.of_nat i * P.
Proof.
  induction time as [| a [| b rest] IH]; intros Hgap i Hi; cbn [length] in Hi.
  - lia.
  - assert (i = O) by lia. subst i. cbn. lia.
  - change (diff (a :: b :: rest)) with ((b - a) :: diff (b :: rest)) in Hgap.
    destruct i as [| i]; [cbn; lia |].
    change (nth (S i) (a :: b :: rest) 0) with (nth i (b :: rest) 0).
    rewrite IH.
    + cbn [nth]. pose proof (Hgap (b - a) (or_introl eq_refl)). lia.
    + intros d Hd. apply Hgap. now right.
    + cbn [length]. lia.
Qed.

Lemma local_time_at_entry (dset : Dataset) (R : Z) (keep center : bool)
    (p : nat * nat) :
  In p (stacked_index dset) ->
  local_time_at dset R keep center (snd p) (fst p)
  = datetime_add (nth (snd p) (ds_time dset) 0) (offset_unit R keep center)
      (offset_tick R keep center (nth (fst p) (ds_lon dset) 0%float)).
Proof.
  intro Hp. apply stacked_index_bounds in Hp. destruct Hp as [Hl Ht].
  unfold local_time_at.
  rewrite (get_approx_localtime_row _ _ _ _ _ (snd p)
             (nth (snd p) (ds_time dset) 0))
    by (apply nth_error_nth'; exact Ht).
  apply nth_error_nth. rewrite nth_error_map.
  rewrite (nth_error_nth' _ 0%float Hl). reflexivity.
Qed.

Lemma avg_keys (dset : Dataset) (keep center : bool)
    (out : list (Z * list float)) :
  avg_diurnal_cycle dset keep center = inr out ->
  exists R,
    _get_time_resolution (ds_time dset) = inr R
    /\ (keep = false \/ 0 < R)
    /\ map fst out
       = unique (valid_keys
                   (map (fun p => time_of_day
                                    (local_time_at dset R keep center (snd p)
                                       (fst p)))
                        (stacked_index dset))).
Proof.
  intro Hout.
  destruct (_get_time_resolution (ds_time dset)) as [e | R] eqn:HR.
  - unfold avg_diurnal_cycle in Hout. rewrite HR in Hout. discriminate.
  - assert (Hok : keep = false \/ 0 < R).
    { apply resolution_dtype_ok_inv.
      unfold avg_diurnal_cycle in Hout. rewrite HR in Hout.
      destruct (if keep then resolution_dtype_error R else None);
        [discriminate | reflexivity]. }
    exists R. split; [reflexivity |]. split; [exact Hok |].
    rewrite (avg_diurnal_cycle_buckets dset R keep center HR Hok) in Hout.
    injection Hout as <-. rewrite map_map. cbn [fst]. apply map_id.
Qed.


End ResolutionMore.

(** X5.  [_get_time_resolution] returns R exactly when the coordinate has at
    least one gap, all its consecutive gaps equal one value g, and R is g
    in whole seconds rounded down (also for negative gaps); no ordering of
    the coordinate is required. *)
Theorem get_time_resolution_returns_iff (time : list Z) (R : Z) :
  _get_time_resolution time = inr R
  <-> exists g, In g (diff time)
                /\ (forall d, In d (diff time) -> d = g)
                /\ R * ns_per_s <= g < (R + 1) * ns_per_s.
Proof.
  split.
  - unfold _get_time_resolution. rewrite length_map.
    destruct (1 <? length (unique (diff time)))%nat eqn:Hlen; [discriminate |].
    apply Nat.ltb_ge in Hlen.
    destruct (unique (diff time)) as [| u [| u' rest]] eqn:Hu;
      cbn [map length] in *; [discriminate | | lia].
    intro H. injection H as <-.
    exists u. split; [| split].
    + apply unique_In. rewrite Hu. now left.
    + intros d Hd. apply (proj2 (unique_In _ _)) in Hd. rewrite Hu in Hd.
      destruct Hd as [<- | []]. reflexivity.
    + apply floor_seconds.
      rewrite cast_ticks_floor by (unfold ns_per_s; lia).
      now rewrite Z.mul_1_r.
  - intros (g & Hg & Hall & Hfloor).
    destruct (get_time_resolution_cases time) as (_ & Hok & _).
    rewrite (Hok g Hg Hall). f_equal. apply floor_seconds, Hfloor.
Qed.

Lemma get_time_resolution_returns_iff_witness :
  (exists g, In g (diff [3 * ns_per_s; 1500000000; 0])
             /\ (forall d, In d (diff [3 * ns_per_s; 1500000000; 0]) -> d = g)
             /\ (-2) * ns_per_s <= g < (-2 + 1) * ns_per_s)
  /\ _get_time_resolution [3 * ns_per_s; 1500000000; 0] = inr (-2).
Proof.
  assert (H : exists g, In g (diff [3 * ns_per_s; 1500000000; 0])
             /\ (forall d, In d (diff [3 * ns_per_s; 1500000000; 0]) -> d = g)
             /\ (-2) * ns_per_s <= g < (-2 + 1) * ns_per_s).
  { exists (-1500000000). split; [left; reflexivity |].
    split; [| unfold ns_per_s; lia].
    intros d [<- | [<- | []]]; reflexivity. }
  split; [exact H |].
  apply (proj2 (get_time_resolution_returns_iff
                  [3 * ns_per_s; 1500000000; 0] (-2))).
  exact H.
Defined.

(** X6.  The outcome of [_get_time_resolution], result or exception, does not
    change when every timestamp is moved by the same amount. *)
Theorem get_time_resolution_shift (time : list Z) (delta : Z) :
  _get_time_resolution (map (fun t => t + delta) time)
  = _get_time_resolution time.
Proof.
  unfold _get_time_resolution. now rewrite diff_shift.
Qed.

(** ** Claims about [avg_diurnal_cycle] *)



(** The example dataset with the default options: the midnight bucket
    pools (time 0, lon 0), which is missing in the first slice, with
    (time 2, lon 180); the 06:00 bucket pools (time 1, lon 0) with
    (time 3, lon 180), both missing in the second slice. *)
Example avg_diurnal_cycle_example :
  avg_diurnal_cycle example_dataset true false
  = inr [ (0, [12%float; 1%float]);
          (21600000000, [7%float; nan]);
          (43200000000, [6%float; 1%float]);
          (64800000000, [7%float; 1%float]) ].
Proof. vm_compute. reflexivity. Qed.




(** ** Further properties of [avg_diurnal_cycle] *)

(** X7.  [avg_diurnal_cycle] validates the time coordinate before anything
    else: whatever the longitudes, the data and the options are, it raises
    the not-evenly-spaced ValueError exactly when two consecutive gaps of
    the time coordinate differ, and the IndexError exactly when the time
    coordinate has fewer than two entries. *)
Theorem avg_diurnal_cycle_errors (dset : Dataset) (keep center : bool) :
  (avg_diurnal_cycle dset keep center = inl (ValueError not_evenly_spaced_msg)
   <-> exists g1 g2, In g1 (diff (ds_time dset))
                     /\ In g2 (diff (ds_time dset)) /\ g1 <> g2)
  /\ (avg_diurnal_cycle dset keep center = inl IndexError
      <-> (length (ds_time dset) < 2)%nat).
Proof.
  destruct (get_time_resolution_cases (ds_time dset)) as (Herr & _ & Hidx).
  assert (Hprop : forall e, e <> TypeError -> e <> Aborted ->
                            (avg_diurnal_cycle dset keep center = inl e
                             <-> _get_time_resolution (ds_time dset) = inl e)).
  { intros e H1 H2. unfold avg_diurnal_cycle.
    destruct (_get_time_resolution (ds_time dset)) as [e' | R];
      [split; congruence |].
    destruct keep; [| split; discriminate].
    unfold resolution_dtype_error.
    destruct (R <? 0); [split; congruence |].
    destruct (R =? 0); split; congruence. }
  split.
  - rewrite Hprop by discriminate. exact Herr.
  - rewrite Hprop by discriminate. split.
    + unfold _get_time_resolution. rewrite length_map.
      destruct (1 <? length (unique (diff (ds_time dset))))%nat;
        [discriminate |].
      destruct (unique (diff (ds_time dset))) eqn:Hu; [| discriminate].
      intros _. apply diff_nil_short, unique_nil, Hu.
    + intro Hshort. apply Hidx, diff_short, Hshort.
Qed.

Lemma avg_diurnal_cycle_errors_witness :
  (exists g1 g2, In g1 (diff (time_with_gaps t2020 [60; 120]))
                 /\ In g2 (diff (time_with_gaps t2020 [60; 120])) /\ g1 <> g2)
  /\ avg_diurnal_cycle
       (mk_dataset (time_with_gaps t2020 [60; 120]) [] []) true false
     = inl (ValueError not_evenly_spaced_msg).
Proof.
  assert (H : exists g1 g2, In g1 (diff (time_with_gaps t2020 [60; 120]))
                 /\ In g2 (diff (time_with_gaps t2020 [60; 120])) /\ g1 <> g2).
  { exists (60 * ns_per_s), (120 * ns_per_s).
    split; [left; vm_compute; reflexivity |].
    split; [right; left; vm_compute; reflexivity |].
    vm_compute. discriminate. }
  split; [exact H |].
  apply (proj2 (proj1 (avg_diurnal_cycle_errors
                         (mk_dataset (time_with_gaps t2020 [60; 120]) [] [])
                         true false))).
  exact H.
Defined.

(** X8.  The buckets of a result come in strictly ascending order of time of
    day, without duplicates, and every key is a time of day: a number of
    microseconds from 0 up to, and not including, one day. *)
Theorem avg_diurnal_cycle_keys_ascending (dset : Dataset)
    (keep center : bool) (out : list (Z * list float))
    (Hout : avg_diurnal_cycle dset keep center = inr out) :
  increasing (map fst out) = true
  /\ NoDup (map fst out)
  /\ forall k, In k (map fst out) -> 0 <= k < 86400 * 1000000.
Proof.
  destruct (avg_keys dset keep center out Hout) as (R & _ & _ & Hkeys).
  rewrite Hkeys.
  split; [apply unique_increasing |].
  split; [apply increasing_NoDup, unique_increasing |].
  intros k Hk. apply (proj1 (unique_In _ _)) in Hk.
  apply valid_keys_In in Hk. destruct Hk as (p & _ & Hp).
  eapply time_of_day_range, Hp.
Qed.

Lemma avg_diurnal_cycle_keys_ascending_witness :
  exists out,
    avg_diurnal_cycle example_dataset false false = inr out
    /\ increasing (map fst out) = true.
Proof.
  eexists. split; [vm_compute; reflexivity |].
  eapply (proj1 (avg_diurnal_cycle_keys_ascending example_dataset false false
                   _ _)).
  Unshelve. vm_compute. reflexivity.
Defined.

(** X10.  Moving the whole time coordinate by a whole number of days changes
    nothing in the result of [avg_diurnal_cycle], nor in its errors. *)
Theorem avg_diurnal_cycle_shift_days (dset : Dataset) (keep center : bool)
    (days : Z) :
  avg_diurnal_cycle
    (mk_dataset (map (fun t => t + days * ns_per_day) (ds_time dset))
                (ds_lon dset) (ds_slices dset))
    keep center
  = avg_diurnal_cycle dset keep center.
Proof.
  set (shifted := mk_dataset (map (fun t => t + days * ns_per_day)
                                  (ds_time dset))
                             (ds_lon dset) (ds_slices dset)).
  assert (Hidx : stacked_index shifted = stacked_index dset).
  { unfold stacked_index, shifted. cbn [ds_time ds_lon].
    now rewrite length_map. }
  unfold avg_diurnal_cycle.
  replace (_get_time_resolution (ds_time shifted))
    with (_get_time_resolution (ds_time dset))
    by (symmetry; apply get_time_resolution_shift).
  destruct (_get_time_resolution (ds_time dset)) as [e | R]; [reflexivity |].
  destruct (if keep then resolution_dtype_error R else None); [reflexivity |].
  rewrite !stacked_local_time, !map_map.
  unfold stacked_values. rewrite Hidx. f_equal. f_equal.
  apply map_ext_in. intros p Hp.
  rewrite (local_time_at_entry dset R keep center p Hp).
  rewrite (local_time_at_entry shifted R keep center p)
    by (rewrite Hidx; exact Hp).
  apply stacked_index_bounds in Hp. destruct Hp as [_ Ht].
  unfold shifted. cbn [ds_time ds_lon].
  rewrite (nth_indep _ 0 (0 + days * ns_per_day))
    by (now rewrite length_map).
  rewrite (map_nth (fun t => t + days * ns_per_day)).
  unfold datetime_add.
  destruct (offset_tick R keep center _) as [z |]; [| reflexivity].
  cbn [option_map time_of_day]. do 2 f_equal.
  replace (nth (snd p) (ds_time dset) 0 + days * ns_per_day + _)
    with (nth (snd p) (ds_time dset) 0
          + cast_ticks (offset_unit R keep center) 1 z + days * ns_per_day)
    by ring.
  apply Z.mod_add. unfold ns_per_day, ns_per_s. lia.
Qed.

(** X11.  With keep_time_resolution, a time coordinate whose gaps all equal a
    whole number R of seconds, and R a divisor of 86400, the result has at
    most 86400 / R buckets, however many longitudes and days there are. *)
Theorem avg_diurnal_cycle_bucket_count (dset : Dataset) (center : bool)
    (R : Z)
    (HR : 0 < R) (Hdiv : (R | 86400))
    (Hne : diff (ds_time dset) <> [])
    (Hgap : forall d, In d (diff (ds_time dset)) -> d = R * ns_per_s) :
  exists out,
    avg_diurnal_cycle dset true center = inr out
    /\ (length out <= Z.to_nat (86400 / R))%nat.
Proof.
  assert (Hns : 0 < ns_per_s) by (unfold ns_per_s; lia).
  assert (Hres : _get_time_resolution (ds_time dset) = inr R).
  { apply get_time_resolution_returns_iff. exists (R * ns_per_s).
    split; [| split; [exact Hgap | lia]].
    destruct (diff (ds_time dset)) as [| d rest]; [contradiction |].
    left. apply Hgap. now left. }
  eexists. split; [apply avg_diurnal_cycle_buckets; [exact Hres | now right] |].
  rewrite length_map.
  destruct Hdiv as [N HN].
  assert (HNpos : 0 < N) by nia.
  assert (HNdiv : 86400 / R = N) by (rewrite HN; apply Z.div_mul; lia).
  rewrite HNdiv.
  set (P := R * ns_per_s).
  set (base := nth 0 (ds_time dset) 0
               + (if center then Z.quot R 2 else 0) * ns_per_s).
  set (slot := fun j : nat =>
                 ((base + Z.of_nat j * P) mod ns_per_day) / ns_per_us).
  set (K := fun p : nat * nat =>
              time_of_day (local_time_at dset R true center (snd p) (fst p))).
  assert (Hincl : incl (unique (valid_keys (map K (stacked_index dset))))
                       (map slot (seq 0 (Z.to_nat N)))).
  { intros k Hk. apply (proj1 (unique_In _ _)) in Hk.
    apply valid_keys_In in Hk. destruct Hk as (p & Hp & HKp).
    unfold K in HKp. rewrite (local_time_at_entry _ _ _ _ p Hp) in HKp.
    rewrite datetime_add_offset in HKp by exact HR.
    destruct (raw_offset (nth (fst p) (ds_lon dset) 0%float)) as [off |];
      [| discriminate].
    cbn [option_map time_of_day] in HKp. injection HKp as <-.
    apply stacked_index_bounds in Hp. destruct Hp as [_ Ht].
    rewrite (evenly_spaced_nth (ds_time dset) P Hgap (snd p) Ht).
    set (m := Z.of_nat (snd p) + off / R).
    apply in_map_iff. exists (Z.to_nat (m mod N)).
    pose proof (Z.mod_pos_bound m N HNpos) as Hm.
    split; [| apply in_seq; lia].
    unfold slot. rewrite Z2Nat.id by lia. f_equal.
    unfold offset_ns.
    replace (nth 0 (ds_time dset) 0 + Z.of_nat (snd p) * P
             + (off / R * R + (if center then Z.quot R 2 else 0))
               * ns_per_s)
      with (base + m * P) by (unfold base, m, P; ring).
    rewrite (Z.div_mod m N) at 2 by lia.
    replace (base + (N * (m / N) + m mod N) * P)
      with (base + m mod N * P + (m / N) * ns_per_day)
      by (unfold ns_per_day, P; rewrite HN; ring).
    symmetry. apply Z.mod_add. unfold ns_per_day. lia. }
  pose proof (NoDup_incl_length
                (increasing_NoDup _ (unique_increasing
                                       (valid_keys (map K (stacked_index dset)))))
                Hincl) as Hlen.
  rewrite length_map, length_seq in Hlen. exact Hlen.
Qed.

Lemma avg_diurnal_cycle_bucket_count_witness :
  0 < 21600 /\ (21600 | 86400)
  /\ diff (ds_time example_dataset) <> []
  /\ exists out,
       avg_diurnal_cycle example_dataset true true = inr out
       /\ (length out <= Z.to_nat (86400 / 21600))%nat.
Proof.
  split; [lia |]. split; [exists 4; reflexivity |].
  split; [vm_compute; discriminate |].
  apply (avg_diurnal_cycle_bucket_count example_dataset true 21600).
  - lia.
  - exists 4. reflexivity.
  - vm_compute. discriminate.
  - intros d Hd. vm_compute in Hd. vm_compute. intuition congruence.
Defined.

(** ** [datetime_utils] *)

(** Linear arithmetic with divisions by constants. *)
Ltac zdiv := Z.to_euclidean_division_equations; lia.

Section Datestr.
Import DatetimeUtils.

Example np_datetime2file_datestr_examples :
  np_datetime2file_datestr 1 (Some (t2020 + 45296 * ns_per_s + 999999999))
  = inr "20200101T123456Z"%string
  /\ np_datetime2file_datestr 1 (Some (-1)) = inr "19691231T235959Z"%string
  /\ np_datetime2file_datestr (86400 * ns_per_s) (Some 11016)
     = inr "20000229T000000Z"%string
  /\ np_datetime2file_datestr ns_per_s (Some 4107542399)
     = inr "21000228T235959Z"%string.
Proof. repeat split; vm_compute; reflexivity. Qed.


Lemma is_leapyear_parts (a b c d : Z) :
  0 <= b < 4 -> 0 <= c < 25 -> 0 <= d < 4 ->
  is_leapyear (400 * a + 100 * b + 4 * c + d + 2000)
  = (d =? 0) && (negb (c =? 0) || (b =? 0)).
Proof.
  intros Hb Hc Hd. unfold is_leapyear.
  set (y := 400 * a + 100 * b + 4 * c + d + 2000).
  assert (H4 : y mod 4 = d) by (unfold y; zdiv).
  assert (H100 : y mod 100 = 4 * c + d) by (unfold y; zdiv).
  assert (H400 : y mod 400 = 100 * b + 4 * c + d) by (unfold y; zdiv).
  rewrite H4, H100, H400.
  destruct (Z.eqb_spec d 0) as [-> | Hd0]; cbn [andb].
  - destruct (Z.eqb_spec c 0) as [-> | Hc0].
    + destruct (Z.eqb_spec b 0) as [-> | Hb0]; [reflexivity |].
      replace (100 * b + 4 * 0 + 0 =? 0) with false
        by (symmetry; apply Z.eqb_neq; lia).
      reflexivity.
    + replace (4 * c + 0 =? 0) with false by (symmetry; apply Z.eqb_neq; lia).
      reflexivity.
  - replace (100 * b + 4 * c + d =? 0) with false
      by (symmetry; apply Z.eqb_neq; lia).
    reflexivity.
Qed.

(** The year lies in the 400-year cycle of the day, and the day of the
    year is smaller than the length of that year. *)
Lemma days_to_yearsdays_bounds (days : Z) :
  let cycle := (days - (365 * 30 + 7)) / 146097 in
  let year := fst (days_to_yearsdays days) in
  let yday := snd (days_to_yearsdays days) in
  400 * cycle + 2000 <= year <= 400 * cycle + 2399
  /\ 0 <= yday < (if is_leapyear year then 366 else 365).
Proof.
  cbv zeta. unfold days_to_yearsdays.
  set (d0 := days - (365 * 30 + 7)).
  set (q0 := d0 / 146097).
  set (d1 := d0 mod 146097).
  assert (H1 : 0 <= d1 < 146097) by (apply Z.mod_pos_bound; lia).
  destruct (Z.leb_spec 366 d1) as [A | A].
  - set (q1 := (d1 - 1) / 36524).
    set (d2 := (d1 - 1) mod 36524).
    assert (Hq1 : 1 <= q1 + 1 <= 4) by (unfold q1; zdiv).
    assert (H2 : 0 <= d2 < 36524) by (apply Z.mod_pos_bound; lia).
    destruct (Z.leb_spec 365 d2) as [B | B].
    + set (q2 := (d2 + 1) / 1461).
      set (d3 := (d2 + 1) mod 1461).
      assert (Hq2 : 0 <= q2 < 25) by (unfold q2; zdiv).
      assert (H3 : 0 <= d3 < 1461) by (apply Z.mod_pos_bound; lia).
      destruct (Z.leb_spec 366 d3) as [C | C]; cbn [fst snd].
      * set (q3 := (d3 - 1) / 365).
        assert (Hq3 : 1 <= q3 < 4) by (unfold q3; zdiv).
        assert (Hm : 0 <= (d3 - 1) mod 365 < 365)
          by (apply Z.mod_pos_bound; lia).
        rewrite is_leapyear_parts by lia.
        replace (q3 =? 0) with false by (symmetry; apply Z.eqb_neq; lia).
        cbn [andb]. lia.
      * assert (Hq2' : 1 <= q2) by (unfold q2; zdiv).
        replace (400 * q0 + 100 * q1 + 4 * q2 + 2000)
          with (400 * q0 + 100 * q1 + 4 * q2 + 0 + 2000) by lia.
        rewrite is_leapyear_parts by lia.
        replace (q2 =? 0) with false by (symmetry; apply Z.eqb_neq; lia).
        cbn [Z.eqb andb orb negb]. lia.
    + cbn [fst snd].
      assert (Hq1' : 1 <= q1) by (unfold q1; zdiv).
      replace (400 * q0 + 100 * q1 + 2000)
        with (400 * q0 + 100 * q1 + 4 * 0 + 0 + 2000) by lia.
      rewrite is_leapyear_parts by lia.
      replace (q1 =? 0) with false by (symmetry; apply Z.eqb_neq; lia).
      cbn [Z.eqb andb orb negb]. lia.
  - cbn [fst snd].
    replace (400 * q0 + 2000)
      with (400 * q0 + 100 * 0 + 4 * 0 + 0 + 2000) by lia.
    rewrite is_leapyear_parts by lia. cbn [Z.eqb andb orb negb]. lia.
Qed.

Lemma month_day_bounds (table : list Z) (month yday : Z) :
  Forall (fun len => 1 <= len <= 31) table ->
  0 <= yday < fold_right Z.add 0 table ->
  let md := month_day table month yday in
  month <= fst md < month + Z.of_nat (length table)
  /\ 1 <= snd md <= 31.
Proof.
  revert month yday.
  induction table as [| len rest IH]; intros month yday Hall Hyd; cbv zeta.
  - cbn in Hyd. lia.
  - inversion Hall as [| ? ? Hlen Hrest]; subst.
    cbn [month_day fold_right length] in *.
    destruct (Z.ltb_spec yday len) as [Hlt | Hge]; cbn [fst snd].
    + lia.
    + specialize (IH (month + 1) (yday - len) Hrest ltac:(lia)).
      cbv zeta in IH. lia.
Qed.

Lemma days_per_month_table (leap : bool) :
  Forall (fun len => 1 <= len <= 31) (days_per_month leap)
  /\ fold_right Z.add 0 (days_per_month leap) = if leap then 366 else 365.
Proof.
  destruct leap; split; try reflexivity;
    repeat constructor; cbn; lia.
Qed.

Lemma is_digit_digit (k : Z) : 0 <= k <= 9 -> is_digit (digit k) = true.
Proof.
  intro Hk.
  assert (H : k = 0 \/ k = 1 \/ k = 2 \/ k = 3 \/ k = 4 \/ k = 5 \/ k = 6
              \/ k = 7 \/ k = 8 \/ k = 9) by lia.
  repeat (destruct H as [-> | H]; [reflexivity |]). subst. reflexivity.
Qed.

Lemma pad2_digits (n : Z) :
  0 <= n < 100 ->
  exists c1 c2, pad2 n = String c1 (String c2 EmptyString)
                /\ is_digit c1 = true /\ is_digit c2 = true.
Proof.
  intro Hn. exists (digit (n / 10)), (digit (n mod 10)).
  split; [reflexivity |].
  split; apply is_digit_digit; zdiv.
Qed.

(** The whole seconds since the epoch that the function formats. *)
Lemma datestr_seconds (unit_ns ticks : Z) :
  0 < unit_ns ->
  cast_ticks unit_ns 1000 ticks / 1000000 = (ticks * unit_ns) / ns_per_s.
Proof.
  intro Hu. rewrite cast_ticks_floor by lia. unfold ns_per_s. zdiv.
Qed.

End Datestr.



(** X17.  For every instant from 1970-01-01T00:00:00 up to the end of the year
    9999 the function returns a string of 16 characters: eight digits,
    ['T'], six digits, ['Z']. *)
Theorem datestr_fixed_layout (unit_ns ticks : Z) (Hu : 0 < unit_ns)
    (Hrange : 0 <= ticks * unit_ns < 253402300800 * ns_per_s) :
  exists s,
    DatetimeUtils.np_datetime2file_datestr unit_ns (Some ticks) = inr s
    /\ DatetimeUtils.datestr_layout s = true
    /\ String.length s = 16%nat.
Proof.
  unfold DatetimeUtils.np_datetime2file_datestr.
  rewrite datestr_seconds by exact Hu.
  set (seconds := ticks * unit_ns / ns_per_s).
  assert (Hs : 0 <= seconds < 253402300800) by (unfold seconds, ns_per_s in *; zdiv).
  set (days := seconds / 86400).
  set (sod := seconds mod 86400).
  assert (Hsod : 0 <= sod < 86400) by (apply Z.mod_pos_bound; lia).
  assert (Hdays : 0 <= days <= 2932896) by (unfold days; zdiv).
  pose proof (days_to_yearsdays_bounds days) as Hy. cbv zeta in Hy.
  destruct (DatetimeUtils.days_to_yearsdays days) as [year yday].
  cbn [fst snd] in Hy. destruct Hy as [Hyear Hyday].
  assert (Hy4 : 1000 <= year <= 9999) by zdiv.
  destruct (days_per_month_table (DatetimeUtils.is_leapyear year))
    as [Htable Hsum].
  pose proof (month_day_bounds _ 1 yday Htable ltac:(rewrite Hsum; exact Hyday))
    as Hmd. cbv zeta in Hmd.
  destruct (DatetimeUtils.month_day _ 1 yday) as [month day].
  cbn [fst snd length DatetimeUtils.days_per_month] in Hmd.
  replace ((1 <=? year) && (year <=? 9999)) with true
    by (symmetry; apply andb_true_intro; split; apply Z.leb_le; lia).
  eexists. split; [reflexivity |].
  unfold DatetimeUtils.year_string.
  replace (year <? 10) with false by (symmetry; apply Z.ltb_ge; lia).
  replace (year <? 100) with false by (symmetry; apply Z.ltb_ge; lia).
  replace (year <? 1000) with false by (symmetry; apply Z.ltb_ge; lia).
  destruct (pad2_digits (year / 100) ltac:(zdiv)) as (a1 & a2 & -> & A1 & A2).
  destruct (pad2_digits (year mod 100) ltac:(zdiv)) as (a3 & a4 & -> & A3 & A4).
  destruct (pad2_digits month ltac:(lia)) as (b1 & b2 & -> & B1 & B2).
  destruct (pad2_digits day ltac:(lia)) as (c1 & c2 & -> & C1 & C2).
  destruct (pad2_digits (sod / 3600) ltac:(zdiv)) as (h1 & h2 & -> & H1 & H2).
  destruct (pad2_digits (sod / 60 mod 60) ltac:(zdiv))
    as (n1 & n2 & -> & N1 & N2).
  destruct (pad2_digits (sod mod 60) ltac:(zdiv)) as (s1 & s2 & -> & S1 & S2).
  unfold DatetimeUtils.datestr_layout.
  cbn [append list_ascii_of_string forallb String.length].
  rewrite A1, A2, A3, A4, B1, B2, C1, C2, H1, H2, N1, N2, S1, S2.
  split; reflexivity.
Qed.

Lemma datestr_fixed_layout_witness :
  0 < 1 /\ 0 <= t2020 * 1 < 253402300800 * ns_per_s
  /\ exists s,
       DatetimeUtils.np_datetime2file_datestr 1 (Some t2020) = inr s
       /\ DatetimeUtils.datestr_layout s = true
       /\ String.length s = 16%nat.
Proof.
  split; [lia |]. split; [vm_compute; split; [discriminate | reflexivity] |].
  apply (datestr_fixed_layout 1 t2020); [lia |].
  vm_compute. split; [discriminate | reflexivity].
Defined.

(** X18.  The function returns no string for NaT, nor for an instant
    from the year 10000 on whose count of microseconds fits in 64 bits:
    [astype('O')] gives [None] or an [int] there, and the call of
    [strftime] raises AttributeError. *)
Theorem datestr_out_of_range (unit_ns ticks : Z) (Hu : 0 < unit_ns)
    (Hlate : 253402300800 * ns_per_s <= ticks * unit_ns)
    (Hfit : ticks * unit_ns < 2 ^ 63 * 1000) :
  DatetimeUtils.np_datetime2file_datestr unit_ns None
  = inl DatetimeUtils.AttributeError
  /\ DatetimeUtils.np_datetime2file_datestr unit_ns (Some ticks)
     = inl DatetimeUtils.AttributeError.
Proof.
  split; [reflexivity |].
  unfold DatetimeUtils.np_datetime2file_datestr.
  rewrite datestr_seconds by exact Hu.
  set (seconds := ticks * unit_ns / ns_per_s).
  assert (Hs : 253402300800 <= seconds)
    by (unfold seconds, ns_per_s in *; zdiv).
  set (days := seconds / 86400).
  assert (Hdays : 2932897 <= days) by (unfold days; zdiv).
  pose proof (days_to_yearsdays_bounds days) as Hy. cbv zeta in Hy.
  destruct (DatetimeUtils.days_to_yearsdays days) as [year yday].
  cbn [fst snd] in Hy. destruct Hy as [Hyear _].
  assert (Hy5 : 10000 <= year) by zdiv.
  destruct (DatetimeUtils.month_day _ 1 yday) as [month day].
  replace (year <=? 9999) with false by (symmetry; apply Z.leb_gt; lia).
  now rewrite andb_false_r.
Qed.

Lemma datestr_out_of_range_witness :
  0 < ns_per_s /\ 253402300800 * ns_per_s <= 253402300800 * ns_per_s
  /\ 253402300800 * ns_per_s < 2 ^ 63 * 1000
  /\ DatetimeUtils.np_datetime2file_datestr ns_per_s (Some 253402300800)
     = inl DatetimeUtils.AttributeError.
Proof.
  split; [vm_compute; reflexivity |]. split; [lia |].
  split; [vm_compute; reflexivity |].
  apply (datestr_out_of_range ns_per_s 253402300800).
  - vm_compute. reflexivity.
  - lia.
  - vm_compute. reflexivity.
Defined.
